(** * WhatsApp bulk sender: a shallow embedding of [whatsapp_sender.py]
    and of the row-range selection of [app.py].

    Conventions of the model.
    - A Python [str] is a [string]; a character is a code point below 256.
    - A Python [int] is a [Z]; the success rate, a Python [float], is a
      binary64 [float].
    - A CSV cell (a value of a contact dict) is a string or an integer.
    - The browser is an oracle: every WebDriver call either returns or
      raises, as a function of the calls made so far; the same oracle
      stands for the operating system where [time.sleep] depends on it.
      [logger] calls change neither the state nor the control flow and
      are left out.
    - [load_contacts] reads the CSV file through pandas and is not part of
      the model: the contact list is set on the sender, as [app.py] does
      after slicing it. *)

From Stdlib Require Import ZArith NArith List String Ascii Bool Lia.
From Stdlib Require Import DecimalString.
From Stdlib Require Import Floats.PrimFloat Numbers.Cyclic.Int63.Uint63.
Import ListNotations.

Local Open Scope string_scope.
Local Open Scope Z_scope.
Local Open Scope list_scope.

(** ** Python values and strings *)

Inductive pyval :=
| VStr (s : string)
| VInt (z : Z).

(** [str(v)] *)
Definition py_str (v : pyval) : string :=
  match v with
  | VStr s => s
  | VInt z => NilZero.string_of_int (Z.to_int z)
  end.

(** [len(l)] *)
Definition len {A : Type} (l : list A) : Z := Z.of_nat (List.length l).

Module PyStr.

(** [c.isspace()] on the code points below 256: TAB..CR, FS..US, space,
    NEL and NBSP. *)
Definition isspace (c : ascii) : bool :=
  let n := N_of_ascii c in
  (((9 <=? n) && (n <=? 13)) || ((28 <=? n) && (n <=? 32))
   || (n =? 133) || (n =? 160))%N.

Fixpoint lstrip (s : string) : string :=
  match s with
  | EmptyString => EmptyString
  | String c r => if isspace c then lstrip r else s
  end.

Fixpoint rstrip (s : string) : string :=
  match s with
  | EmptyString => EmptyString
  | String c r =>
      match rstrip r with
      | EmptyString => if isspace c then EmptyString else String c EmptyString
      | r' => String c r'
      end
  end.

(** [s.strip()] *)
Definition strip (s : string) : string := rstrip (lstrip s).

(** [s.replace(old, new)] for a one-character [old]. *)
Fixpoint replace (old : ascii) (new : string) (s : string) : string :=
  match s with
  | EmptyString => EmptyString
  | String c r =>
      if Ascii.eqb c old then (new ++ replace old new r)%string
      else String c (replace old new r)
  end.

(** [s.startswith(p)] *)
Fixpoint startswith (p s : string) : bool :=
  match p, s with
  | EmptyString, _ => true
  | String a p', String b s' => Ascii.eqb a b && startswith p' s'
  | String _ _, EmptyString => false
  end.

(** [c in s] for a character [c]. *)
Fixpoint occurs (c : ascii) (s : string) : bool :=
  match s with
  | EmptyString => false
  | String d r => Ascii.eqb d c || occurs c r
  end.

End PyStr.

(** ** [WhatsAppBulkSender.format_phone_number] *)

Definition format_phone_number (phone : pyval) : string :=
  let phone := PyStr.strip (py_str phone) in
  let phone :=
    PyStr.replace ")" ""
      (PyStr.replace "(" ""
         (PyStr.replace " " ""
            (PyStr.replace "-" "" phone))) in
  if negb (PyStr.startswith "+" phone) then
    if negb (PyStr.startswith "91" phone) then ("+91" ++ phone)%string
    else ("+" ++ phone)%string
  else phone.

(** The four separators that [format_phone_number] removes. *)
Definition separators : list ascii := ["-"; " "; "("; ")"]%char.

Definition separator_free (s : string) : Prop :=
  forall c, In c separators -> PyStr.occurs c s = false.

(** A string made of one TAB. *)
Definition tab : string := String (ascii_of_nat 9) "".

(** ** Slices and the row range of [app.py] *)

(** A slice bound as [list.__getitem__] clamps it: a negative bound counts
    from the end, and every bound is brought into [0, n]. *)
Definition slice_bound (n i : Z) : Z :=
  if i <? 0 then Z.max 0 (i + n) else Z.min i n.

(** [l[lo:hi]] *)
Definition py_slice {A : Type} (l : list A) (lo hi : Z) : list A :=
  let a := slice_bound (len l) lo in
  let b := slice_bound (len l) hi in
  firstn (Z.to_nat (b - a)) (skipn (Z.to_nat a) l).

(** [contacts_to_send = sender.contacts[start_row-1:end_row]] *)
Definition contacts_to_send {A : Type} (contacts : list A)
    (start_row end_row : Z) : list A :=
  py_slice contacts (start_row - 1) end_row.

(** ** Exceptions and results *)

Inductive exn :=
| KeyError (key : string)
| IndexError (msg : string)
| ValueError (msg : string)
| ZeroDivisionError (msg : string)
| OverflowError (msg : string)
| OSError (msg : string)
| WebDriverException (msg : string).

(** [str(e)] *)
Definition exn_str (e : exn) : string :=
  match e with
  | KeyError key => ("'" ++ key ++ "'")%string
  | IndexError msg | ValueError msg | ZeroDivisionError msg
  | OverflowError msg | OSError msg | WebDriverException msg => msg
  end.

Inductive Result (A : Type) :=
| Ret (a : A)
| Raise (e : exn).
Arguments Ret {A} a.
Arguments Raise {A} e.

(** ** Numbers of the summaries *)

Inductive pynum :=
| PInt (z : Z)
| PFloat (f : float).

(** [float(z)] for [0 <= z < 2^63]; exact below [2^53], which no list
    length reaches. *)
Definition float_of_int (z : Z) : float := PrimFloat.of_uint63 (Uint63.of_Z z).

(** [a / b] on two [int]s: true division, [ZeroDivisionError] on [b = 0]. *)
Definition truediv (a b : Z) : Result float :=
  if b =? 0 then Raise (ZeroDivisionError "division by zero")
  else Ret (PrimFloat.div (float_of_int a) (float_of_int b)).

(** [bool(l)] *)
Definition truthy {A : Type} (l : list A) : bool :=
  match l with
  | [] => false
  | _ :: _ => true
  end.

(** ** Contacts and [str.format] *)

(** One row of the CSV: [df.to_dict('records')] gives a dict per row. *)
Definition Contact := list (string * pyval).

Fixpoint dict_lookup (key : string) (d : Contact) : option pyval :=
  match d with
  | [] => None
  | (k, v) :: rest => if String.eqb k key then Some v else dict_lookup key rest
  end.

(** [d.get(key, default)] *)
Definition dict_get (d : Contact) (key : string) (default : pyval) : pyval :=
  match dict_lookup key d with
  | Some v => v
  | None => default
  end.

Module Format.

Definition is_digit (c : ascii) : bool :=
  let n := N_of_ascii c in ((48 <=? n) && (n <=? 57))%N.

Fixpoint all_digits (s : string) : bool :=
  match s with
  | EmptyString => true
  | String c r => is_digit c && all_digits r
  end.

(** The characters that start an attribute or index access, a conversion,
    a format spec or a nested field. *)
Definition is_special (c : ascii) : bool :=
  (Ascii.eqb c "." || Ascii.eqb c "[" || Ascii.eqb c "]"
   || Ascii.eqb c "!" || Ascii.eqb c ":" || Ascii.eqb c "{")%char.

(** The value of the replacement field [{name}] when only keyword
    arguments are given: an empty or numeric name indexes the empty
    tuple of positional arguments. *)
Definition field_value (kw : Contact) (name : string) : option (Result string) :=
  if all_digits name then
    if (String.length name <=? 18)%nat then
      Some (Raise (IndexError
        ("Replacement index "
         ++ (if String.eqb name "" then "0" else name)
         ++ " out of range for positional args tuple")))
    else None
  else
    match dict_lookup name kw with
    | Some v => Some (Ret (py_str v))
    | None => Some (Raise (KeyError name))
    end.

(** One pass over the template.  [field] is [None] in literal text and
    [Some buf] inside a replacement field whose name read so far is
    [buf]; [out] is the text produced so far. *)
Fixpoint scan (kw : Contact) (field : option string) (s : string)
    (out : string) : option (Result string) :=
  match field, s with
  | None, EmptyString => Some (Ret out)
  | None, String "{" (String "{" r) => scan kw None r (out ++ "{")
  | None, String "{" r => scan kw (Some "") r out
  | None, String "}" (String "}" r) => scan kw None r (out ++ "}")
  | None, String "}" _ =>
      Some (Raise (ValueError "Single '}' encountered in format string"))
  | None, String c r => scan kw None r (out ++ String c "")
  | Some buf, EmptyString =>
      Some (Raise (ValueError
        (if String.eqb buf "" then "Single '{' encountered in format string"
         else "expected '}' before end of string")))
  | Some buf, String "}" r =>
      match field_value kw buf with
      | Some (Ret v) => scan kw None r (out ++ v)
      | other => other
      end
  | Some buf, String c r =>
      if is_special c then None else scan kw (Some (buf ++ String c "")) r out
  end%string.

(** Literal text without braces. *)
Fixpoint brace_free (s : string) : bool :=
  match s with
  | EmptyString => true
  | String c r =>
      (negb (Ascii.eqb c "{") && negb (Ascii.eqb c "}")) && brace_free r
  end.

(** A field name with none of the special characters and no brace. *)
Fixpoint plain_name (s : string) : bool :=
  match s with
  | EmptyString => true
  | String c r => (negb (is_special c) && negb (Ascii.eqb c "}")) && plain_name r
  end.

(** [template.format( **kw )] for templates made of literal text, doubled
    braces and plain [{name}] fields.  [None]: the template uses a
    conversion, a format spec, an attribute or index access or a nested
    field, which are not modelled. *)
Definition py_format (template : string) (kw : Contact) : option (Result string) :=
  scan kw None template "".

(** A total formatter that agrees with [py_format] wherever it is
    defined.  Elsewhere its answer is arbitrary (it raises); the general
    properties below take the formatter as a parameter and do not depend
    on this choice. *)
Definition python_format (template : string) (kw : Contact) : Result string :=
  match py_format template kw with
  | Some r => r
  | None => Raise (ValueError "format feature outside the modelled subset")
  end.

End Format.

(** ** The sender object and the world it runs in *)

(** A browser session, named by the number of WebDriver calls made before
    it was started. *)
Definition Driver := nat.

Record SentEntry := mkSent {
  sent_name : pyval;
  sent_phone : string;
  sent_timestamp : Z;
  sent_status : string
}.

Record FailedEntry := mkFailed {
  failed_name : pyval;
  failed_phone : pyval;
  failed_timestamp : Z;
  failed_error : string
}.

(** The attributes of a [WhatsAppBulkSender]. *)
Record Sender := mkSender {
  csv_file : string;
  wait_time : Z;
  contacts : list Contact;
  sent_messages : list SentEntry;
  failed_messages : list FailedEntry;
  driver : option Driver
}.

(** [WhatsAppBulkSender(csv_file, wait_time)] *)
Definition init (csv : string) (wait : Z) : Sender :=
  mkSender csv wait [] [] [] None.

Definition set_contacts (cs : list Contact) (s : Sender) : Sender :=
  mkSender (csv_file s) (wait_time s) cs (sent_messages s)
    (failed_messages s) (driver s).

Definition set_driver (d : option Driver) (s : Sender) : Sender :=
  mkSender (csv_file s) (wait_time s) (contacts s) (sent_messages s)
    (failed_messages s) d.

(** [self.sent_messages.append(e)] *)
Definition append_sent (e : SentEntry) (s : Sender) : Sender :=
  mkSender (csv_file s) (wait_time s) (contacts s) (sent_messages s ++ [e])
    (failed_messages s) (driver s).

(** [self.failed_messages.append(e)] *)
Definition append_failed (e : FailedEntry) (s : Sender) : Sender :=
  mkSender (csv_file s) (wait_time s) (contacts s) (sent_messages s)
    (failed_messages s ++ [e]) (driver s).

(** What the program does to the outside, in order. *)
Inductive Event :=
| Launch
| Get (url : string)
| WaitPresence (timeout : Z) (xpath : string)
| FindElement (xpath : string)
| Click
| Quit (d : Driver)
| Sleep (seconds : Z).

(** The sender, the calls made so far and the browser sessions alive. *)
Record World := mkWorld {
  self : Sender;
  trace : list Event;
  live : list Driver
}.

(** The world outside the program: a WebDriver call made after [history]
    returns ([None]) or raises an exception whose [str] is the given
    message, and so does the operating system when it is asked for a very
    long sleep. *)
Definition Browser := list Event -> Event -> option string.

(** [datetime.now()] after [history]. *)
Definition Clock := list Event -> Z.

(** Computations that read and change the world and may raise.  What was
    done before an exception stays done. *)
Definition M (A : Type) := World -> Result A * World.

Definition ret {A : Type} (a : A) : M A := fun w => (Ret a, w).

Definition raise {A : Type} (e : exn) : M A := fun w => (Raise e, w).

Definition bind {A B : Type} (m : M A) (k : A -> M B) : M B :=
  fun w =>
    match m w with
    | (Ret a, w') => k a w'
    | (Raise e, w') => (Raise e, w')
    end.

Declare Scope py_scope.
Delimit Scope py_scope with py.
Notation "x <- m ;; k" := (bind m (fun x => k))
  (at level 61, m at next level, right associativity) : py_scope.
Notation "m ;; k" := (bind m (fun _ => k))
  (at level 61, right associativity) : py_scope.
Local Open Scope py_scope.

(** [try: body except Exception as e: handler(e)] *)
Definition try_except {A : Type} (body : M A) (handler : exn -> M A) : M A :=
  fun w =>
    match body w with
    | (Ret a, w') => (Ret a, w')
    | (Raise e, w') => handler e w'
    end.

(** [try: body finally: cleanup] *)
Definition try_finally {A : Type} (body : M A) (cleanup : M unit) : M A :=
  fun w =>
    match body w with
    | (r, w') =>
        match cleanup w' with
        | (Ret _, w'') => (r, w'')
        | (Raise e, w'') => (Raise e, w'')
        end
    end.

Definition lift {A : Type} (r : Result A) : M A := fun w => (r, w).

Definition gets {A : Type} (f : Sender -> A) : M A :=
  fun w => (Ret (f (self w)), w).

Definition modify (f : Sender -> Sender) : M unit :=
  fun w => (Ret tt, mkWorld (f (self w)) (trace w) (live w)).

Definition record (ev : Event) (w : World) : World :=
  mkWorld (self w) (trace w ++ [ev]) (live w).

(** The largest number of seconds whose nanoseconds fit the 64-bit clock
    of [time.sleep]. *)
Definition sleep_max : Z := 9223372036.

(** A sleep so short that its deadline fits that clock on any machine: a
    billion seconds, some thirty years. *)
Definition sleep_safe : Z := 1000000000.

(** [d.quit()] *)
Definition quit (d : Driver) : M unit :=
  fun w =>
    (Ret tt, mkWorld (self w) (trace w ++ [Quit d])
               (List.remove Nat.eq_dec d (live w))).

(** The seconds slept in a sequence of events, in order. *)
Definition pauses (evs : list Event) : list Z :=
  flat_map (fun ev => match ev with Sleep z => [z] | _ => [] end) evs.

Definition root_url : string := "https://web.whatsapp.com".
Definition chat_pane_xpath : string :=
  "//div[@contenteditable='true'][@data-tab='3']".
Definition send_button_xpath : string := "//button[@aria-label='Send']".

(** The summary dict returned by [send_bulk_messages]. *)
Record Summary := mkSummary {
  total : Z;
  sent : Z;
  failed : Z;
  success_rate : pynum
}.

(** The ['summary'] dict of [get_report]. *)
Record ReportSummary := mkReportSummary {
  total_sent : Z;
  total_failed : Z;
  report_success_rate : pynum
}.

Record Report := mkReport {
  report_sent : list SentEntry;
  report_failed : list FailedEntry;
  summary : ReportSummary
}.

(** The dict built by the [return] that ends [send_bulk_messages]. *)
Definition summary_of (s : Sender) : Result Summary :=
  match
    (if truthy (contacts s) then
       match truediv (len (sent_messages s)) (len (contacts s)) with
       | Ret q => Ret (PFloat (PrimFloat.mul q 100))
       | Raise e => Raise e
       end
     else Ret (PInt 0))
  with
  | Ret rate =>
      Ret (mkSummary (len (contacts s)) (len (sent_messages s))
             (len (failed_messages s)) rate)
  | Raise e => Raise e
  end.

(** [WhatsAppBulkSender.get_report] *)
Definition get_report (s : Sender) : Result Report :=
  match
    (if truthy (sent_messages s) || truthy (failed_messages s) then
       match truediv (len (sent_messages s))
               (len (sent_messages s) + len (failed_messages s)) with
       | Ret q => Ret (PFloat (PrimFloat.mul q 100))
       | Raise e => Raise e
       end
     else Ret (PInt 0))
  with
  | Ret rate =>
      Ret (mkReport (sent_messages s) (failed_messages s)
             (mkReportSummary (len (sent_messages s))
                (len (failed_messages s)) rate))
  | Raise e => Raise e
  end.

Section Run.

Variable browser : Browser.
Variable clock : Clock.
(** [message.format( **contact )] *)
Variable str_format : string -> Contact -> Result string.

(** A call of the WebDriver API. *)
Definition call (ev : Event) : M unit :=
  fun w =>
    match browser (trace w) ev with
    | None => (Ret tt, record ev w)
    | Some msg => (Raise (WebDriverException msg), record ev w)
    end.

(** [webdriver.Chrome(options=chrome_options)] *)
Definition chrome : M Driver :=
  fun w =>
    match browser (trace w) Launch with
    | None =>
        let d := List.length (trace w) in
        (Ret d, mkWorld (self w) (trace w ++ [Launch]) (d :: live w))
    | Some msg => (Raise (WebDriverException msg), record Launch w)
    end.

(** [datetime.now()] *)
Definition now : M Z := fun w => (Ret (clock (trace w)), w).

(** What [time.sleep(seconds)] raises after [history], if anything.  A
    negative length is refused with [ValueError], a length above
    [sleep_max] with [OverflowError].  Otherwise the operating system gets
    the deadline, the time since boot plus the length, and refuses it with
    [OSError] when it reaches what the clock holds: always for a length of
    [sleep_max], never for a length up to [sleep_safe] (the machine would
    have run for more than two centuries), and in between as the world
    decides, which knows how long the machine has run. *)
Definition sleep_error (history : list Event) (seconds : Z) : option exn :=
  if seconds <? 0 then
    Some (ValueError "sleep length must be non-negative")
  else if sleep_max <? seconds then
    Some (OverflowError "timestamp too large to convert to C _PyTime_t")
  else if seconds <=? sleep_safe then None
  else if seconds =? sleep_max then
    Some (OSError "[Errno 22] Invalid argument")
  else
    match browser history (Sleep seconds) with
    | Some msg => Some (OSError msg)
    | None => None
    end.

(** [time.sleep(seconds)] *)
Definition sleep (seconds : Z) : M unit :=
  fun w =>
    match sleep_error (trace w) seconds with
    | Some e => (Raise e, w)
    | None => (Ret tt, record (Sleep seconds) w)
    end.

(** [time.sleep] accepts [seconds]: whenever it is called with that
    length it raises nothing.  Every length from 0 to [sleep_safe] is
    accepted, no negative one is and none from [sleep_max] on (lemmas
    [accepted_safe] and [accepted_bounds]). *)
Definition accepted (seconds : Z) : Prop :=
  forall history, sleep_error history seconds = None.

(** [if self.driver: self.driver.quit()] *)
Definition quit_if_open : M unit :=
  d <- gets driver ;;
  match d with
  | Some d => quit d
  | None => ret tt
  end.

(** [WhatsAppBulkSender.open_whatsapp_web] *)
Definition open_whatsapp_web : M bool :=
  try_except
    (d <- chrome ;;
     modify (set_driver (Some d)) ;;
     call (Get root_url) ;;
     call (WaitPresence 30 chat_pane_xpath) ;;
     ret true)
    (fun e =>
       quit_if_open ;;
       modify (set_driver None) ;;
       ret false).

(** [WhatsAppBulkSender.send_message] *)
Definition send_message (phone : pyval) (message : string) (name : pyval)
    : M bool :=
  d <- gets driver ;;
  match d with
  | None => ret false
  | Some _ =>
      try_except
        (let formatted_phone := format_phone_number phone in
         let chat_url :=
           ("https://web.whatsapp.com/send/?phone=" ++ formatted_phone
            ++ "&text=" ++ message)%string in
         call (Get chat_url) ;;
         call (WaitPresence 10 send_button_xpath) ;;
         call (FindElement send_button_xpath) ;;
         call Click ;;
         ts <- now ;;
         modify (append_sent (mkSent name formatted_phone ts "sent")) ;;
         wait <- gets wait_time ;;
         sleep wait ;;
         ret true)
        (fun e =>
           let error_msg := exn_str e in
           ts <- now ;;
           modify (append_failed (mkFailed name phone ts error_msg)) ;;
           ret false)
  end.

(** The body of the [for] loop of [send_bulk_messages], for the contact
    numbered [i] (from 1). *)
Definition loop_body (message : string) (delay_seconds : Z) (i : Z)
    (contact : Contact) : M unit :=
  let phone := dict_get contact "phone_number" (VStr "") in
  let name := dict_get contact "name" (VStr "Unknown") in
  personalized_msg <- lift (str_format message contact) ;;
  send_message phone personalized_msg name ;;
  n <- gets (fun s => len (contacts s)) ;;
  if i <? n then sleep delay_seconds else ret tt.

(** [for i, contact in enumerate(cs, i): ...] *)
Fixpoint send_loop (message : string) (delay_seconds : Z) (i : Z)
    (cs : list Contact) : M unit :=
  match cs with
  | [] => ret tt
  | contact :: rest =>
      loop_body message delay_seconds i contact ;;
      send_loop message delay_seconds (i + 1) rest
  end.

(** [WhatsAppBulkSender.send_bulk_messages]; [None] is Python's [None]. *)
Definition send_bulk_messages (message : string) (delay_seconds : Z)
    : M (option Summary) :=
  cs <- gets contacts ;;
  if negb (truthy cs) then ret None
  else
    opened <- open_whatsapp_web ;;
    if negb opened then ret None
    else
      try_finally
        (cs <- gets contacts ;;
         send_loop message delay_seconds 1 cs)
        (d <- gets driver ;;
         match d with
         | Some d => quit d ;; modify (set_driver None)
         | None => ret tt
         end) ;;
      s <- gets (fun s => s) ;;
      r <- lift (summary_of s) ;;
      ret (Some r).

(** [WhatsAppBulkSender.close_browser] *)
Definition close_browser : M unit :=
  d <- gets driver ;;
  match d with
  | Some d => quit d ;; modify (set_driver None)
  | None => ret tt
  end.

End Run.

(** ** Browsers and clocks to run the model on *)

Module Scenario.

(** Every call returns. *)
Definition cooperative : Browser := fun _ _ => None.

(** The QR code is never scanned: the 30 second wait times out. *)
Definition never_authenticates : Browser :=
  fun _ ev =>
    match ev with
    | WaitPresence 30 _ => Some "Message: timeout"
    | _ => None
    end.

(** The send button never shows up. *)
Definition no_send_button : Browser :=
  fun _ ev =>
    match ev with
    | WaitPresence 10 _ => Some "Message: timeout"
    | _ => None
    end.

Definition ticking : Clock := fun history => Z.of_nat (List.length history).

Definition asha : Contact :=
  [("phone_number", VStr "9876543210"); ("name", VStr "Asha")].
Definition ravi : Contact :=
  [("phone_number", VInt 919812345678); ("name", VStr "Ravi")].

Definition meera : Contact :=
  [("phone_number", VStr "(98)76543210"); ("name", VStr "Meera");
   ("city", VStr "Pune")].

Fixpoint pages_opened (history : list Event) : nat :=
  match history with
  | [] => 0
  | Get _ :: rest => S (pages_opened rest)
  | _ :: rest => pages_opened rest
  end.

(** The send button does not show up in the second chat. *)
Definition second_chat_times_out : Browser :=
  fun history ev =>
    match ev with
    | WaitPresence 10 _ =>
        if (pages_opened history =? 3)%nat then Some "Message: timeout"
        else None
    | _ => None
    end.

Definition sender : Sender := init "contacts.csv" 2.
Definition one_contact : Sender := set_contacts [asha] sender.
Definition two_contacts : Sender := set_contacts [asha; ravi] sender.
Definition three_contacts : Sender := set_contacts [asha; ravi; meera] sender.
Definition city_known_for_first : Sender := set_contacts [meera; ravi; asha] sender.
Definition negative_wait : Sender :=
  set_contacts [asha] (init "contacts.csv" (-1)).
Definition long_wait : Sender :=
  set_contacts [asha] (init "contacts.csv" 10000000000).

Definition start (s : Sender) : World := mkWorld s [] [].

Definition run (b : Browser) (s : Sender) (message : string) (delay : Z)
    : Result (option Summary) * World :=
  send_bulk_messages b ticking Format.python_format message delay (start s).

End Scenario.

(** ** Vocabulary of the properties *)

(** The expression [num / den * 100] of the two summaries. *)
Definition percent (num den : Z) : float :=
  PrimFloat.mul (PrimFloat.div (float_of_int num) (float_of_int den)) 100.

(** What a send may not touch. *)
Definition same_settings (w w' : World) : Prop :=
  csv_file (self w') = csv_file (self w)
  /\ wait_time (self w') = wait_time (self w)
  /\ contacts (self w') = contacts (self w)
  /\ driver (self w') = driver (self w)
  /\ live w' = live w.

(** The three ways a send with a live browser ends. *)
Inductive Attempt :=
| Delivered
| Undelivered
| DeliveredThenFailed.

Definition attempt_sent (a : Attempt) : nat :=
  match a with Undelivered => 0 | _ => 1 end.

Definition attempt_failed (a : Attempt) : nat :=
  match a with Delivered => 0 | _ => 1 end.

(** The seconds slept by the loop from contact number [i] on, when
    [delivered] tells which sends went through: [wait] after each one that
    did, [delay] after each contact but the last of the [n]. *)
Fixpoint loop_pauses (wait delay n i : Z) (delivered : list bool) : list Z :=
  match delivered with
  | [] => []
  | ok :: rest =>
      (if ok then [wait] else [])
      ++ (if i <? n then [delay] else [])
      ++ loop_pauses wait delay n (i + 1) rest
  end.

Definition count (b : bool) (l : list bool) : nat :=
  count_occ Bool.bool_dec l b.

Definition formats (str_format : string -> Contact -> Result string)
    (message : string) (c : Contact) : Prop :=
  exists p, str_format message c = Ret p.

(** What the [finally] block of [send_bulk_messages] does. *)
Definition release (w : World) : World :=
  match driver (self w) with
  | Some d =>
      mkWorld (set_driver None (self w)) (trace w ++ [Quit d])
        (List.remove Nat.eq_dec d (live w))
  | None => w
  end.

(** The world [w] with no contacts loaded. *)
Definition without_contacts (w : World) : World :=
  mkWorld (set_contacts [] (self w)) (trace w) (live w).

(** The pauses as the specification has them: [delay] after every contact
    but the last, and nothing else. *)
Definition spec_pauses (delay : Z) (cs : list Contact) : list Z :=
  repeat delay (List.length cs - 1).

(** The seconds slept in all. *)
Definition total_pause (evs : list Event) : Z :=
  fold_right Z.add 0 (pauses evs).

(** ** Vocabulary of the further properties *)

Definition is_separator (c : ascii) : bool :=
  (Ascii.eqb c "-" || Ascii.eqb c " " || Ascii.eqb c "(" || Ascii.eqb c ")")%char.

(** [s] after the four [replace] calls of [format_phone_number]. *)
Definition without_separators (s : string) : string :=
  PyStr.replace ")" ""
    (PyStr.replace "(" ""
       (PyStr.replace " " ""
          (PyStr.replace "-" "" s))).

(** What [format_phone_number] puts before a cleaned number. *)
Definition with_country_code (p : string) : string :=
  if negb (PyStr.startswith "+" p) then
    if negb (PyStr.startswith "91" p) then ("+91" ++ p)%string
    else ("+" ++ p)%string
  else p.

(** The only white space of [s] is the space character. *)
Fixpoint spaces_only (s : string) : bool :=
  match s with
  | EmptyString => true
  | String c r => (negb (PyStr.isspace c) || Ascii.eqb c " ") && spaces_only r
  end.

(** [s] has no white space. *)
Fixpoint space_free (s : string) : bool :=
  match s with
  | EmptyString => true
  | String c r => negb (PyStr.isspace c) && space_free r
  end.

(** [s] has neither white space nor separators. *)
Fixpoint clean (s : string) : bool :=
  match s with
  | EmptyString => true
  | String c r => (negb (PyStr.isspace c) && negb (is_separator c)) && clean r
  end.

(** The events of a chat: anything but starting and closing a browser. *)
Definition chat_event (ev : Event) : bool :=
  match ev with
  | Launch | Quit _ => false
  | _ => true
  end.

(** Sessions are named by earlier lengths of the trace, none is listed
    twice, and [driver] refers to a session that is alive. *)
Definition sound (w : World) : Prop :=
  (forall d, In d (live w) -> (d < List.length (trace w))%nat)
  /\ NoDup (live w)
  /\ (forall d, driver (self w) = Some d -> In d (live w)).

(** [contact.get('phone_number', '')] and [contact.get('name', 'Unknown')] *)
Definition contact_phone (c : Contact) : pyval :=
  dict_get c "phone_number" (VStr "").
Definition contact_name (c : Contact) : pyval :=
  dict_get c "name" (VStr "Unknown").

(** The elements of [l] whose flag in [keep] is [true]. *)
Fixpoint select {A : Type} (keep : list bool) (l : list A) : list A :=
  match keep, l with
  | k :: ks, x :: xs => if k then x :: select ks xs else select ks xs
  | _, _ => []
  end.

(** ** [WhatsAppBulkSender.load_contacts] *)

(** A pandas frame: its column names and its rows, one cell per column. *)
Record DataFrame := mkFrame {
  columns : list string;
  rows : list (list pyval)
}.

(** Every row of a frame has a cell for every column. *)
Definition rectangular (df : DataFrame) : Prop :=
  Forall (fun row => List.length row = List.length (columns df)) (rows df).

(** What [pd.read_csv(path, encoding='utf-8')] does. *)
Inductive ReadOutcome :=
| ReadFrame (df : DataFrame)
| ReadFileNotFound
| ReadError (msg : string).

Definition FileSystem := string -> ReadOutcome.

(** [df.to_dict('records')]: one dict per row, from column name to cell. *)
Definition to_records (df : DataFrame) : list Contact :=
  map (fun row => combine (columns df) row) (rows df).

(** [col in df.columns] *)
Definition has_column (df : DataFrame) (col : string) : bool :=
  existsb (String.eqb col) (columns df).

Definition required_cols : list string := ["phone_number"; "name"].

(** [WhatsAppBulkSender.load_contacts]: the value returned and the sender
    afterwards.  Both [except] branches log and return [False]. *)
Definition load_contacts (fs : FileSystem) (s : Sender) : bool * Sender :=
  match fs (csv_file s) with
  | ReadFrame df =>
      if negb (forallb (has_column df) required_cols) then (false, s)
      else (true, set_contacts (to_records df) s)
  | ReadFileNotFound => (false, s)
  | ReadError _ => (false, s)
  end.

(** ** The send button of [app.py] *)

(** The handler of the send button without its widgets: it builds a
    sender on the temporary CSV file with [wait_time=delay], loads the
    contacts, keeps the chosen rows and runs [send_bulk_messages].  The
    result is what [send_bulk_messages] gave; when loading fails the
    handler does nothing. *)
Definition start_sending (fs : FileSystem) (browser : Browser) (clock : Clock)
    (str_format : string -> Contact -> Result string)
    (message_template : string) (delay start_row end_row : Z)
    (history : list Event) (alive : list Driver)
    : option (Result (option Summary) * World) :=
  let sender := init "temp_contacts.csv" delay in
  match load_contacts fs sender with
  | (true, sender) =>
      let contacts_to_send :=
        contacts_to_send (contacts sender) start_row end_row in
      let sender := set_contacts contacts_to_send sender in
      Some (send_bulk_messages browser clock str_format message_template delay
              (mkWorld sender history alive))
  | (false, _) => None
  end.

(** ** More worlds to run the model on *)

Module Scenario2.
Import Scenario.

(** Chrome starts only when nothing was asked of the browser before. *)
Definition chrome_starts_once : Browser :=
  fun history ev =>
    match ev, history with
    | Launch, _ :: _ => Some "Message: session not created"
    | _, _ => None
    end.

(** The world after a first [open_whatsapp_web]. *)
Definition opened (b : Browser) (s : Sender) : World :=
  snd (open_whatsapp_web b (start s)).

Definition frame : DataFrame :=
  mkFrame ["phone_number"; "name"; "city"]
    [[VStr "9876543210"; VStr "Asha"; VStr "Pune"];
     [VInt 919812345678; VStr "Ravi"; VStr "Delhi"];
     [VStr "(98)76543210"; VStr "Meera"; VStr "Pune"]].

Definition nameless : DataFrame :=
  mkFrame ["phone_number"; "city"] [[VStr "9876543210"; VStr "Pune"]].

Definition disk : FileSystem :=
  fun path =>
    if String.eqb path "contacts.csv" then ReadFrame frame
    else if String.eqb path "temp_contacts.csv" then ReadFrame frame
    else if String.eqb path "nameless.csv" then ReadFrame nameless
    else ReadFileNotFound.

End Scenario2.

(** * Properties *)

(** ** Strings *)

Module PyStrFacts.
Import PyStr.

Lemma occurs_replace_same (c : ascii) (s : string) :
  occurs c (replace c "" s) = false.
Proof.
  induction s as [|d r IH]; simpl.
  - reflexivity.
  - destruct (Ascii.eqb d c) eqn:E; simpl.
    + exact IH.
    + now rewrite E.
Qed.

Lemma occurs_replace_other (c d : ascii) (s : string) :
  occurs c s = false -> occurs c (replace d "" s) = false.
Proof.
  induction s as [|x r IH]; simpl; intros H.
  - reflexivity.
  - apply orb_false_iff in H as [Hx Hr].
    destruct (Ascii.eqb x d); simpl.
    + now apply IH.
    + now rewrite Hx, IH.
Qed.

Lemma replace_absent (c : ascii) (s : string) :
  occurs c s = false -> replace c "" s = s.
Proof.
  induction s as [|x r IH]; simpl; intros H.
  - reflexivity.
  - apply orb_false_iff in H as [Hx Hr].
    now rewrite Hx, IH.
Qed.

Lemma occurs_lstrip (c : ascii) (s : string) :
  occurs c s = false -> occurs c (lstrip s) = false.
Proof.
  induction s as [|x r IH]; simpl; intros H.
  - reflexivity.
  - destruct (isspace x).
    + apply IH. now apply orb_false_iff in H.
    + exact H.
Qed.

Lemma occurs_rstrip (c : ascii) (s : string) :
  occurs c s = false -> occurs c (rstrip s) = false.
Proof.
  induction s as [|x r IH]; simpl; intros H.
  - reflexivity.
  - apply orb_false_iff in H as [Hx Hr].
    specialize (IH Hr).
    destruct (rstrip r) as [|y r'].
    + destruct (isspace x); simpl; [reflexivity | now rewrite Hx].
    + simpl in *. now rewrite Hx, IH.
Qed.

Lemma occurs_strip (c : ascii) (s : string) :
  occurs c s = false -> occurs c (strip s) = false.
Proof. intros H. unfold strip. now apply occurs_rstrip, occurs_lstrip. Qed.

(** Stripping keeps a first character that is not white space. *)
Lemma strip_keeps_head (c : ascii) (r : string) :
  isspace c = false -> exists r', strip (String c r) = String c r'.
Proof.
  intros Hc. unfold strip. simpl. rewrite Hc. simpl.
  destruct (rstrip r) as [|y r'].
  - rewrite Hc. now exists "".
  - now exists (String y r').
Qed.

Lemma startswith_plus (s : string) :
  startswith "+" s = true -> exists t, s = String "+" t.
Proof.
  destruct s as [|c r]; cbn [startswith]; [discriminate|].
  rewrite andb_true_r. intros H. apply Ascii.eqb_eq in H as <-.
  now exists r.
Qed.

Lemma startswith_plus_head (t : string) :
  startswith "+" (String "+" t) = true.
Proof.
  reflexivity.
Qed.

End PyStrFacts.

Lemma remove_separators_free (s : string) :
  separator_free
    (PyStr.replace ")" ""
       (PyStr.replace "(" ""
          (PyStr.replace " " "" (PyStr.replace "-" "" s)))).
Proof.
  intros c Hc. simpl in Hc.
  destruct Hc as [<-|[<-|[<-|[<-|[]]]]].
  - do 3 apply PyStrFacts.occurs_replace_other.
    apply PyStrFacts.occurs_replace_same.
  - do 2 apply PyStrFacts.occurs_replace_other.
    apply PyStrFacts.occurs_replace_same.
  - apply PyStrFacts.occurs_replace_other.
    apply PyStrFacts.occurs_replace_same.
  - apply PyStrFacts.occurs_replace_same.
Qed.

Lemma remove_separators_id (s : string) :
  separator_free s ->
  PyStr.replace ")" ""
    (PyStr.replace "(" ""
       (PyStr.replace " " "" (PyStr.replace "-" "" s))) = s.
Proof.
  intros H.
  rewrite (PyStrFacts.replace_absent "-") by (apply H; simpl; auto).
  rewrite (PyStrFacts.replace_absent " ") by (apply H; simpl; auto).
  rewrite (PyStrFacts.replace_absent "(") by (apply H; simpl; auto).
  rewrite (PyStrFacts.replace_absent ")") by (apply H; simpl; auto).
  reflexivity.
Qed.

(** A formatted number starts with [+] and holds no separator. *)
Lemma format_phone_number_shape (phone : pyval) :
  exists t, format_phone_number phone = String "+" t
            /\ separator_free (String "+" t).
Proof.
  unfold format_phone_number.
  set (p := PyStr.replace ")" "" _).
  assert (Hp : separator_free p) by apply remove_separators_free.
  destruct (PyStr.startswith "+" p) eqn:Eplus; cbn [negb].
  - apply PyStrFacts.startswith_plus in Eplus as [t Ht].
    exists t. now rewrite <- Ht.
  - destruct (PyStr.startswith "91" p); cbn [negb String.append].
    + exists p. split; [reflexivity|].
      intros c Hc. cbn [PyStr.occurs]. rewrite (Hp c Hc).
      destruct Hc as [<-|[<-|[<-|[<-|[]]]]]; reflexivity.
    + exists (String "9" (String "1" p)). split; [reflexivity|].
      intros c Hc. cbn [PyStr.occurs]. rewrite (Hp c Hc).
      destruct Hc as [<-|[<-|[<-|[<-|[]]]]]; reflexivity.
Qed.

(** Formatting a string that starts with [+] and holds no separator only
    strips it. *)
Lemma format_phone_number_plus (t : string) :
  separator_free (String "+" t) ->
  format_phone_number (VStr (String "+" t)) = PyStr.strip (String "+" t).
Proof.
  intros Hfree. unfold format_phone_number. simpl py_str.
  destruct (PyStrFacts.strip_keeps_head "+" t eq_refl) as [r' Hr'].
  assert (Hs : separator_free (PyStr.strip (String "+" t))).
  { intros c Hc. apply PyStrFacts.occurs_strip. now apply Hfree. }
  rewrite (remove_separators_id _ Hs), Hr'.
  now rewrite PyStrFacts.startswith_plus_head.
Qed.

(** C6, as amended: formatting a formatted number strips it and does nothing
    else, so formatting is idempotent on every input whose formatted number
    does not end in white space; the four numbers of the specification all
    format to +919876543210, which formats to itself. *)
Theorem C6_format_phone_number_twice :
  (forall phone : pyval,
     format_phone_number (VStr (format_phone_number phone))
     = PyStr.strip (format_phone_number phone))
  /\ (forall phone : pyval,
        PyStr.strip (format_phone_number phone) = format_phone_number phone ->
        format_phone_number (VStr (format_phone_number phone))
        = format_phone_number phone)
  /\ format_phone_number (VStr "+919876543210") = "+919876543210"
  /\ format_phone_number (VStr "9876543210") = "+919876543210"
  /\ format_phone_number (VStr "91 9876 543210") = "+919876543210"
  /\ format_phone_number (VStr "(98)76543210") = "+919876543210".
Proof.
  assert (H : forall phone : pyval,
             format_phone_number (VStr (format_phone_number phone))
             = PyStr.strip (format_phone_number phone)).
  { intros phone.
    destruct (format_phone_number_shape phone) as [t [-> Hfree]].
    now apply format_phone_number_plus. }
  split; [exact H|].
  split; [intros phone Hstrip; now rewrite H|].
  repeat split; reflexivity.
Qed.

(** The amended C6 at the number 9876543210. *)
Lemma C6_format_phone_number_twice_witness :
  PyStr.strip (format_phone_number (VStr "9876543210"))
  = format_phone_number (VStr "9876543210")
  /\ format_phone_number (VStr (format_phone_number (VStr "9876543210")))
     = format_phone_number (VStr "9876543210").
Proof.
  split; [reflexivity|].
  apply (proj1 (proj2 C6_format_phone_number_twice) (VStr "9876543210")).
  reflexivity.
Defined.

(** C6 as stated fails: a tab left at the end by the removal of a separator
    survives the first formatting and is stripped by the second. *)
Lemma C6_not_idempotent :
  format_phone_number (VStr ("1" ++ tab ++ "-")) = ("+911" ++ tab)%string
  /\ format_phone_number (VStr (format_phone_number (VStr ("1" ++ tab ++ "-"))))
     = "+911"
  /\ format_phone_number (VStr (format_phone_number (VStr ("1" ++ tab ++ "-"))))
     <> format_phone_number (VStr ("1" ++ tab ++ "-")).
Proof.
  repeat split; try reflexivity.
  vm_compute. discriminate.
Qed.

(** ** Row range *)

Lemma len_nonneg {A : Type} (l : list A) : 0 <= len l.
Proof. unfold len. lia. Qed.

Lemma len_app {A : Type} (l l' : list A) : len (l ++ l') = len l + len l'.
Proof. unfold len. rewrite length_app. lia. Qed.

Lemma len_cons {A : Type} (a : A) (l : list A) : len (a :: l) = 1 + len l.
Proof. unfold len. cbn [List.length]. lia. Qed.

Lemma truthy_len {A : Type} (l : list A) : truthy l = (0 <? len l).
Proof.
  destruct l as [|a l]; [reflexivity|].
  rewrite len_cons. pose proof (len_nonneg l). cbn [truthy].
  symmetry. apply Z.ltb_lt. lia.
Qed.

(** With bounds inside the list, a slice is the plain sub-list. *)
Lemma py_slice_inside {A : Type} (l : list A) (lo hi : Z) :
  0 <= lo -> lo <= hi -> hi <= len l ->
  py_slice l lo hi = firstn (Z.to_nat (hi - lo)) (skipn (Z.to_nat lo) l).
Proof.
  intros Hlo Hle Hhi. unfold py_slice, slice_bound.
  destruct (Z.ltb_spec lo 0); [lia|].
  destruct (Z.ltb_spec hi 0); [lia|].
  now rewrite !Z.min_l by lia.
Qed.

(** C7: for 1 <= start <= end <= n the selected rows are the rows numbered
    start to end (from 1), in load order: the loaded list is some start-1
    rows, then the selection, then the rest; the selection has
    end-start+1 rows and its row number k-start (from 0) is the loaded row
    number k (from 1). *)
Theorem C7_row_range_inclusive_one_based {A : Type} (loaded : list A)
    (start_row end_row : Z) :
  1 <= start_row -> start_row <= end_row -> end_row <= len loaded ->
  (exists before after,
     loaded = before ++ contacts_to_send loaded start_row end_row ++ after
     /\ len before = start_row - 1)
  /\ len (contacts_to_send loaded start_row end_row) = end_row - start_row + 1
  /\ (forall k, start_row <= k <= end_row ->
        nth_error (contacts_to_send loaded start_row end_row)
          (Z.to_nat (k - start_row))
        = nth_error loaded (Z.to_nat (k - 1))).
Proof.
  intros H1 H2 H3. unfold contacts_to_send.
  rewrite py_slice_inside by lia.
  set (a := Z.to_nat (start_row - 1)).
  set (n := Z.to_nat (end_row - (start_row - 1))).
  assert (Hlen : (a + n <= List.length loaded)%nat) by (unfold len in H3; lia).
  split; [|split].
  - exists (firstn a loaded), (skipn n (skipn a loaded)).
    rewrite (firstn_skipn n), (firstn_skipn a). split; [reflexivity|].
    unfold len. rewrite length_firstn. lia.
  - unfold len. rewrite length_firstn, length_skipn. lia.
  - intros k Hk. rewrite nth_error_firstn, nth_error_skipn.
    destruct (Nat.ltb_spec (Z.to_nat (k - start_row)) n); [|lia].
    f_equal. lia.
Qed.

(** C7 at the example of the specification: rows 2 to 3 of five. *)
Lemma C7_row_range_inclusive_one_based_witness :
  contacts_to_send ["a"; "b"; "c"; "d"; "e"] 2 3 = ["b"; "c"]
  /\ nth_error (contacts_to_send ["a"; "b"; "c"; "d"; "e"] 2 3)
       (Z.to_nat (3 - 2))
     = nth_error ["a"; "b"; "c"; "d"; "e"] (Z.to_nat (3 - 1)).
Proof.
  split; [reflexivity|].
  apply (proj2 (proj2 (C7_row_range_inclusive_one_based
                         ["a"; "b"; "c"; "d"; "e"] 2 3
                         ltac:(lia) ltac:(lia) ltac:(vm_compute; discriminate)))).
  lia.
Defined.

(** ** Summaries *)

(** The summary of [send_bulk_messages] never raises: its division is
    reached only with a non-empty contact list. *)
Lemma summary_of_returns (s : Sender) :
  summary_of s
  = Ret (mkSummary (len (contacts s)) (len (sent_messages s))
           (len (failed_messages s))
           (if truthy (contacts s)
            then PFloat (percent (len (sent_messages s)) (len (contacts s)))
            else PInt 0)).
Proof.
  unfold summary_of, truediv, percent.
  rewrite truthy_len. destruct (Z.ltb_spec 0 (len (contacts s))).
  - destruct (Z.eqb_spec (len (contacts s)) 0); [lia|reflexivity].
  - reflexivity.
Qed.

(** Neither does the summary of [get_report]. *)
Lemma get_report_returns (s : Sender) :
  get_report s
  = Ret (mkReport (sent_messages s) (failed_messages s)
           (mkReportSummary (len (sent_messages s)) (len (failed_messages s))
              (if truthy (sent_messages s) || truthy (failed_messages s)
               then PFloat (percent (len (sent_messages s))
                              (len (sent_messages s) + len (failed_messages s)))
               else PInt 0))).
Proof.
  unfold get_report, truediv, percent.
  rewrite !truthy_len.
  pose proof (len_nonneg (sent_messages s)).
  pose proof (len_nonneg (failed_messages s)).
  destruct (Z.ltb_spec 0 (len (sent_messages s)));
    destruct (Z.ltb_spec 0 (len (failed_messages s))); cbn [orb];
    try reflexivity;
    (destruct (Z.eqb_spec (len (sent_messages s) + len (failed_messages s)) 0);
     [lia|reflexivity]).
Qed.

(** C8: the rate of the report divides by len(sent)+len(failed), the rate
    of the run summary by the number of contacts; when these two numbers
    are equal, so are the two rates. *)
Theorem C8_report_and_run_rates_agree (s : Sender) :
  len (sent_messages s) + len (failed_messages s) = len (contacts s) ->
  exists (run : Summary) (rep : Report),
    summary_of s = Ret run
    /\ get_report s = Ret rep
    /\ success_rate run
       = (if truthy (contacts s)
          then PFloat (percent (len (sent_messages s)) (len (contacts s)))
          else PInt 0)
    /\ report_success_rate (summary rep)
       = (if truthy (sent_messages s) || truthy (failed_messages s)
          then PFloat (percent (len (sent_messages s))
                         (len (sent_messages s) + len (failed_messages s)))
          else PInt 0)
    /\ report_success_rate (summary rep) = success_rate run.
Proof.
  intros Hsame.
  eexists. eexists.
  split; [apply summary_of_returns|].
  split; [apply get_report_returns|].
  cbn [success_rate report_success_rate summary].
  split; [reflexivity|]. split; [reflexivity|].
  rewrite Hsame, !truthy_len.
  pose proof (len_nonneg (sent_messages s)).
  pose proof (len_nonneg (failed_messages s)).
  destruct (Z.ltb_spec 0 (len (sent_messages s)));
    destruct (Z.ltb_spec 0 (len (failed_messages s)));
    destruct (Z.ltb_spec 0 (len (contacts s))); cbn [orb];
    try reflexivity; lia.
Qed.

(** ** One send *)

Section RunFacts.

Variable browser : Browser.
Variable clock : Clock.
Variable str_format : string -> Contact -> Result string.

Ltac step :=
  cbv beta iota delta
    [send_message open_whatsapp_web loop_body quit_if_open close_browser
     bind ret raise lift gets modify try_except try_finally call chrome now
     sleep record quit];
  cbn [self trace live fst snd csv_file wait_time contacts sent_messages
       failed_messages driver set_driver append_sent append_failed].

Ltac reduce :=
  cbv beta iota zeta;
  cbn [self trace live fst snd csv_file wait_time contacts sent_messages
       failed_messages driver set_driver append_sent append_failed].

Ltac oracle :=
  match goal with
  | |- context [browser ?t ?e] => destruct (browser t e) eqn:?; reduce
  end.

Lemma same_settings_refl (w : World) : same_settings w w.
Proof. now repeat split. Qed.

Lemma same_settings_trans (w1 w2 w3 : World) :
  same_settings w1 w2 -> same_settings w2 w3 -> same_settings w1 w3.
Proof.
  unfold same_settings. intros (?&?&?&?&?) (?&?&?&?&?).
  repeat split; congruence.
Qed.

(** A send with a live browser returns, and leaves one of three marks. *)
Lemma send_message_live (w : World) (d : Driver) (phone : pyval)
    (message : string) (name : pyval) :
  driver (self w) = Some d ->
  exists (a : Attempt) (w' : World) (evs : list Event),
    send_message browser clock phone message name w
    = (Ret (match a with Delivered => true | _ => false end), w')
    /\ same_settings w w'
    /\ trace w' = trace w ++ evs
    /\ (exists ds, sent_messages (self w') = sent_messages (self w) ++ ds
                   /\ List.length ds = attempt_sent a
                   /\ Forall (fun e => sent_phone e = format_phone_number phone
                                       /\ sent_name e = name) ds)
    /\ (exists df, failed_messages (self w') = failed_messages (self w) ++ df
                   /\ List.length df = attempt_failed a
                   /\ Forall (fun e => failed_phone e = phone
                                       /\ failed_name e = name) df)
    /\ pauses evs = match a with
                    | Delivered => [wait_time (self w)]
                    | _ => []
                    end
    /\ match a with
       | DeliveredThenFailed => ~ accepted browser (wait_time (self w))
       | _ => True
       end.
Proof.
  intros Hd. step. rewrite Hd.
  repeat oracle.
  5: match goal with
     | |- context [sleep_error browser ?h ?z] =>
         destruct (sleep_error browser h z) eqn:Hsleep; reduce
     end.
  all: rewrite <- ?app_assoc; cbn [app].
  1-4: exists Undelivered.
  5: exists DeliveredThenFailed.
  6: exists Delivered.
  all: eexists; eexists; split; [reflexivity|]; reduce.
  all: split; [now repeat split|].
  all: split; [reflexivity|].
  all: split;
    [eexists; split;
       [try reflexivity; symmetry; apply app_nil_r|
        split; [reflexivity | repeat constructor]]|].
  all: split;
    [eexists; split;
       [try reflexivity; symmetry; apply app_nil_r|
        split; [reflexivity | repeat constructor]]|].
  all: split; [reflexivity|]; try exact I.
  intros Hacc. rewrite Hacc in Hsleep. discriminate.
Qed.

Lemma send_message_closed (w : World) (phone : pyval) (message : string)
    (name : pyval) :
  driver (self w) = None ->
  send_message browser clock phone message name w = (Ret false, w).
Proof. intros Hd. step. now rewrite Hd. Qed.

(** C9: without a browser, [send_message] returns [False] and changes
    nothing: neither list of outcomes gets an entry, and nothing is asked of
    the browser. *)
Theorem C9_send_message_without_browser (w : World) (phone : pyval)
    (message : string) (name : pyval) :
  driver (self w) = None ->
  send_message browser clock phone message name w = (Ret false, w).
Proof. intros Hd. step. now rewrite Hd. Qed.

(** Whatever the browser does, a send only appends to the two lists. *)
Lemma send_message_accumulates (w : World) (phone : pyval)
    (message : string) (name : pyval) :
  exists (b : bool) (w' : World) ds df,
    send_message browser clock phone message name w = (Ret b, w')
    /\ same_settings w w'
    /\ sent_messages (self w') = sent_messages (self w) ++ ds
    /\ failed_messages (self w') = failed_messages (self w) ++ df.
Proof.
  destruct (driver (self w)) as [d|] eqn:Hd.
  - destruct (send_message_live w d phone message name Hd)
      as (a & w' & evs & Hrun & Hsame & _ & (ds & Hs & _) & (df & Hf & _) & _).
    now exists (match a with Delivered => true | _ => false end), w', ds, df.
  - exists false, w, [], [].
    rewrite send_message_closed by assumption.
    rewrite !app_nil_r. split; [reflexivity|].
    split; [apply same_settings_refl|]. now split.
Qed.

(** ** The loop *)

Lemma loop_body_format_error (message : string) (delay : Z) (i : Z)
    (c : Contact) (w : World) (e : exn) :
  str_format message c = Raise e ->
  loop_body browser clock str_format message delay i c w = (Raise e, w).
Proof. intros H. unfold loop_body, bind, lift. now rewrite H. Qed.

(** A sleep either is taken, and recorded, or raises and changes
    nothing. *)
Lemma sleep_cases (seconds : Z) (w : World) :
  sleep browser seconds w = (Ret tt, record (Sleep seconds) w)
  \/ exists e, sleep browser seconds w = (Raise e, w).
Proof.
  unfold sleep. destruct (sleep_error browser (trace w) seconds) as [e|].
  - right. now exists e.
  - now left.
Qed.

Lemma sleep_accepted (seconds : Z) (w : World) :
  accepted browser seconds ->
  sleep browser seconds w = (Ret tt, record (Sleep seconds) w).
Proof. intros H. unfold sleep. now rewrite H. Qed.

Lemma sleep_negative (seconds : Z) (w : World) :
  seconds < 0 ->
  sleep browser seconds w
  = (Raise (ValueError "sleep length must be non-negative"), w).
Proof.
  intros H. unfold sleep, sleep_error.
  now destruct (Z.ltb_spec seconds 0); [|lia].
Qed.

(** A sleep of at most [sleep_safe] seconds is always taken. *)
Lemma accepted_safe (seconds : Z) :
  0 <= seconds <= sleep_safe -> accepted browser seconds.
Proof.
  intros [H0 H1] history. unfold sleep_error.
  destruct (Z.ltb_spec seconds 0); [lia|].
  destruct (Z.ltb_spec sleep_max seconds);
    [unfold sleep_max, sleep_safe in *; lia|].
  now destruct (Z.leb_spec seconds sleep_safe); [|lia].
Qed.

(** A duration that [time.sleep] accepts is neither negative nor as long
    as the largest timestamp. *)
Lemma accepted_bounds (seconds : Z) :
  accepted browser seconds -> 0 <= seconds < sleep_max.
Proof.
  intros Hacc. specialize (Hacc []). unfold sleep_error in Hacc.
  destruct (Z.ltb_spec seconds 0); [discriminate|].
  destruct (Z.ltb_spec sleep_max seconds); [discriminate|].
  destruct (Z.leb_spec seconds sleep_safe);
    [unfold sleep_max, sleep_safe in *; lia|].
  destruct (Z.eqb_spec seconds sleep_max); [discriminate|]. lia.
Qed.

Lemma loop_body_formatted (message : string) (delay : Z) (i : Z)
    (c : Contact) (w w1 : World) (p : string) (b : bool) :
  str_format message c = Ret p ->
  send_message browser clock (dict_get c "phone_number" (VStr "")) p
    (dict_get c "name" (VStr "Unknown")) w = (Ret b, w1) ->
  loop_body browser clock str_format message delay i c w
  = if i <? len (contacts (self w1)) then sleep browser delay w1
    else (Ret tt, w1).
Proof.
  intros Hp Hsend. unfold loop_body, bind, lift. rewrite Hp, Hsend.
  unfold gets, ret.
  destruct (i <? len (contacts (self w1))); [|reflexivity].
  now destruct (sleep browser delay w1) as [[[]|e] w2].
Qed.

Lemma same_settings_record (ev : Event) (w : World) :
  same_settings w (record ev w).
Proof. now repeat split. Qed.

(** The loop only appends to the two lists, however it ends. *)
Lemma send_loop_accumulates (message : string) (delay : Z)
    (cs : list Contact) :
  forall (i : Z) (w : World),
  exists (r : Result unit) (w' : World) ds df,
    send_loop browser clock str_format message delay i cs w = (r, w')
    /\ same_settings w w'
    /\ sent_messages (self w') = sent_messages (self w) ++ ds
    /\ failed_messages (self w') = failed_messages (self w) ++ df.
Proof.
  induction cs as [|c rest IH]; intros i w.
  - exists (Ret tt), w, [], []. rewrite !app_nil_r.
    split; [reflexivity|]. split; [apply same_settings_refl|]. now split.
  - cbn [send_loop]. unfold bind at 1.
    destruct (str_format message c) as [p|e] eqn:Hfmt.
    + destruct (send_message_accumulates w (dict_get c "phone_number" (VStr ""))
                  p (dict_get c "name" (VStr "Unknown")))
        as (b & w1 & ds & df & Hsend & Hsame & Hs & Hf).
      rewrite (loop_body_formatted _ _ _ _ _ _ _ _ Hfmt Hsend).
      destruct (i <? len (contacts (self w1)));
        [destruct (sleep_cases delay w1) as [Hsl|[e Hsl]]; rewrite Hsl|].
      * destruct (IH (i + 1) (record (Sleep delay) w1))
          as (r & w' & ds' & df' & Hloop & Hsame' & Hs' & Hf').
        exists r, w', (ds ++ ds'), (df ++ df'). rewrite Hloop.
        split; [reflexivity|].
        split; [eapply same_settings_trans; [exact Hsame|];
                eapply same_settings_trans; [apply same_settings_record|];
                exact Hsame'|].
        rewrite Hs', Hf'. cbn [record self]. rewrite Hs, Hf, <- !app_assoc.
        now split.
      * exists (Raise e), w1, ds, df.
        split; [reflexivity|]. split; [exact Hsame|]. now split.
      * destruct (IH (i + 1) w1)
          as (r & w' & ds' & df' & Hloop & Hsame' & Hs' & Hf').
        exists r, w', (ds ++ ds'), (df ++ df'). rewrite Hloop.
        split; [reflexivity|].
        split; [eapply same_settings_trans; eassumption|].
        rewrite Hs', Hf', Hs, Hf, <- !app_assoc. now split.
    + rewrite (loop_body_format_error _ _ _ _ _ _ Hfmt).
      exists (Raise e), w, [], []. rewrite !app_nil_r.
      split; [reflexivity|]. split; [apply same_settings_refl|]. now split.
Qed.

Lemma pauses_app (evs evs' : list Event) :
  pauses (evs ++ evs') = pauses evs ++ pauses evs'.
Proof. unfold pauses. apply flat_map_app. Qed.

(** With waits that [time.sleep] accepts and a template that every contact
    can fill, the loop goes through all the contacts.  [delivered] tells
    which sends went through: those contacts, in order, make the new sent
    entries, the others the new failed entries, and the loop sleeps as
    [loop_pauses] says. *)
Lemma send_loop_completes (message : string) (delay : Z) (d : Driver)
    (cs : list Contact) :
  accepted browser delay ->
  Forall (formats str_format message) cs ->
  forall (i : Z) (w : World),
  driver (self w) = Some d ->
  accepted browser (wait_time (self w)) ->
  exists (delivered : list bool) (w' : World) (evs : list Event) ds df,
    send_loop browser clock str_format message delay i cs w = (Ret tt, w')
    /\ same_settings w w'
    /\ List.length delivered = List.length cs
    /\ trace w' = trace w ++ evs
    /\ pauses evs
       = loop_pauses (wait_time (self w)) delay (len (contacts (self w))) i
           delivered
    /\ sent_messages (self w') = sent_messages (self w) ++ ds
    /\ failed_messages (self w') = failed_messages (self w) ++ df
    /\ List.length ds = count true delivered
    /\ List.length df = count false delivered
    /\ map sent_phone ds
       = map (fun c => format_phone_number (contact_phone c))
           (select delivered cs)
    /\ map sent_name ds = map contact_name (select delivered cs)
    /\ map failed_phone df
       = map contact_phone (select (map negb delivered) cs)
    /\ map failed_name df = map contact_name (select (map negb delivered) cs).
Proof.
  intros Hdelay Hall.
  induction Hall as [|c rest [p Hfmt] _ IH]; intros i w Hd Hwait.
  - exists [], w, [], [], []. rewrite !app_nil_r.
    split; [reflexivity|]. split; [apply same_settings_refl|].
    now repeat split.
  - destruct (send_message_live w d (dict_get c "phone_number" (VStr "")) p
                (dict_get c "name" (VStr "Unknown")) Hd)
      as (a & w1 & evs1 & Hsend & Hsame & Htr & (ds & Hs & Hds & Hdsall)
          & (df & Hf & Hdf & Hdfall) & Hp & Ha).
    cbn [send_loop]. unfold bind at 1.
    rewrite (loop_body_formatted _ _ _ _ _ _ _ _ Hfmt Hsend).
    set (w2 := if i <? len (contacts (self w1)) then record (Sleep delay) w1
               else w1).
    assert (Hrun : (if i <? len (contacts (self w1))
                    then sleep browser delay w1
                    else (Ret tt, w1)) = (Ret tt, w2)).
    { unfold w2. destruct (i <? len (contacts (self w1)));
        [now apply sleep_accepted | reflexivity]. }
    assert (Hsame2 : same_settings w1 w2
                     /\ sent_messages (self w2) = sent_messages (self w1)
                     /\ failed_messages (self w2) = failed_messages (self w1)
                     /\ trace w2
                        = trace w1
                          ++ (if i <? len (contacts (self w1))
                              then [Sleep delay] else [])).
    { unfold w2. destruct (i <? len (contacts (self w1)));
        (split; [|split; [reflexivity|split; [reflexivity|]]]);
        [apply same_settings_record | reflexivity
        | apply same_settings_refl | now rewrite app_nil_r]. }
    destruct Hsame2 as (Hsame2 & Hs2 & Hf2 & Htr2).
    pose proof (same_settings_trans _ _ _ Hsame Hsame2) as Hsame02.
    destruct Hsame as (_ & Hw1 & Hc1 & _).
    destruct (IH (i + 1) w2)
      as (dl & w' & evs' & ds' & df' & Hloop & Hsame' & Hlen & Htr' & Hp'
          & Hs' & Hf' & Hds' & Hdf' & Hsp & Hsn & Hfp & Hfn).
    { destruct Hsame02 as (_ & _ & _ & Hdrv & _). congruence. }
    { destruct Hsame02 as (_ & Hw & _). now rewrite Hw. }
    exists ((match a with Delivered => true | _ => false end) :: dl), w',
      (evs1 ++ (if i <? len (contacts (self w1)) then [Sleep delay] else [])
       ++ evs'), (ds ++ ds'), (df ++ df').
    rewrite Hrun, Hloop. split; [reflexivity|].
    split; [eapply same_settings_trans; eassumption|].
    split; [cbn [List.length]; now rewrite Hlen|].
    split; [rewrite Htr', Htr2, Htr, <- !app_assoc; reflexivity|].
    split.
    { destruct Hsame02 as (_ & Hw & Hc & _).
      rewrite !pauses_app, Hp, Hp', Hw, Hc, Hc1. cbn [loop_pauses].
      f_equal; [now destruct a|].
      now destruct (i <? len (contacts (self w))). }
    split; [rewrite Hs', Hs2, Hs, <- app_assoc; reflexivity|].
    split; [rewrite Hf', Hf2, Hf, <- app_assoc; reflexivity|].
    rewrite !length_app, !map_app, Hds, Hdf, Hds', Hdf', Hsp, Hsn, Hfp, Hfn.
    unfold count in *.
    destruct a; cbn [attempt_sent attempt_failed] in *;
      [| |exfalso; now apply Ha].
    + destruct ds as [|e [|? ?]]; try discriminate Hds.
      destruct df; try discriminate Hdf.
      apply Forall_inv in Hdsall as [Hph Hn].
      cbn [map select negb app count_occ].
      unfold contact_phone, contact_name. rewrite Hph, Hn.
      destruct (Bool.bool_dec true true); [|congruence].
      destruct (Bool.bool_dec true false); [discriminate|].
      now repeat split.
    + destruct df as [|e [|? ?]]; try discriminate Hdf.
      destruct ds; try discriminate Hds.
      apply Forall_inv in Hdfall as [Hph Hn].
      cbn [map select negb app count_occ].
      unfold contact_phone, contact_name. rewrite Hph, Hn.
      destruct (Bool.bool_dec false true); [discriminate|].
      destruct (Bool.bool_dec false false); [|congruence].
      now repeat split.
Qed.

(** When the loop returns and [time.sleep] accepts [wait_time], every
    contact got exactly one outcome. *)
Lemma send_loop_one_outcome_each (message : string) (delay : Z) (d : Driver)
    (cs : list Contact) :
  forall (i : Z) (w w' : World),
  driver (self w) = Some d ->
  accepted browser (wait_time (self w)) ->
  send_loop browser clock str_format message delay i cs w = (Ret tt, w') ->
  (List.length (sent_messages (self w'))
   + List.length (failed_messages (self w')))%nat
  = (List.length (sent_messages (self w))
     + List.length (failed_messages (self w)) + List.length cs)%nat.
Proof.
  induction cs as [|c rest IH]; intros i w w' Hd Hwait Hrun.
  - cbn in Hrun. injection Hrun as <-. cbn [List.length]. lia.
  - cbn [send_loop] in Hrun. unfold bind at 1 in Hrun.
    destruct (str_format message c) as [p|e] eqn:Hfmt.
    2: { rewrite (loop_body_format_error _ _ _ _ _ _ Hfmt) in Hrun.
         discriminate. }
    destruct (send_message_live w d (dict_get c "phone_number" (VStr "")) p
                (dict_get c "name" (VStr "Unknown")) Hd)
      as (a & w1 & evs1 & Hsend & Hsame & Htr & (ds & Hs & Hds & _)
          & (df & Hf & Hdf & _) & Hp & Ha).
    destruct Hsame as (Hcsv & Hw & Hc & Hdrv & Hlive).
    rewrite (loop_body_formatted _ _ _ _ _ _ _ _ Hfmt Hsend) in Hrun.
    assert (Hone : (List.length ds + List.length df = 1)%nat).
    { rewrite Hds, Hdf. destruct a; cbn; try reflexivity.
      exfalso. now apply Ha. }
    destruct (i <? len (contacts (self w1)));
      [destruct (sleep_cases delay w1) as [Hsl|[e Hsl]];
       rewrite Hsl in Hrun; [|discriminate]|].
    + apply IH in Hrun; cbn [record self] in *; try congruence.
      rewrite Hrun, Hs, Hf, !length_app. cbn [List.length]. lia.
    + apply IH in Hrun; try congruence.
      rewrite Hrun, Hs, Hf, !length_app. cbn [List.length]. lia.
Qed.

Lemma send_loop_app (message : string) (delay : Z) (cs cs' : list Contact) :
  forall (i : Z) (w : World),
  send_loop browser clock str_format message delay i (cs ++ cs') w
  = match send_loop browser clock str_format message delay i cs w with
    | (Ret _, w1) =>
        send_loop browser clock str_format message delay (i + len cs) cs' w1
    | (Raise e, w1) => (Raise e, w1)
    end.
Proof.
  induction cs as [|c rest IH]; intros i w.
  - cbn. unfold ret. now rewrite Z.add_0_r.
  - cbn [app send_loop]. unfold bind.
    destruct (loop_body browser clock str_format message delay i c w)
      as [[[]|e] w1]; [|reflexivity].
    rewrite IH, len_cons. now replace (i + 1 + len rest) with (i + (1 + len rest)) by lia.
Qed.

(** The loop stops at the first contact that the template cannot be filled
    for, with the exception of [format]; the contacts before it have their
    outcome, this contact and the ones after it have none. *)
Lemma send_loop_stops_at_format_error (message : string) (delay : Z)
    (d : Driver) (before : list Contact) (c : Contact) (after : list Contact)
    (e : exn) (i : Z) (w : World) :
  accepted browser delay ->
  Forall (formats str_format message) before ->
  str_format message c = Raise e ->
  driver (self w) = Some d ->
  accepted browser (wait_time (self w)) ->
  exists w' : World,
    send_loop browser clock str_format message delay i (before ++ c :: after) w
    = (Raise e, w')
    /\ send_loop browser clock str_format message delay i before w = (Ret tt, w')
    /\ same_settings w w'
    /\ (List.length (sent_messages (self w'))
        + List.length (failed_messages (self w')))%nat
       = (List.length (sent_messages (self w))
          + List.length (failed_messages (self w)) + List.length before)%nat.
Proof.
  intros Hdelay Hall Hfmt Hd Hwait.
  destruct (send_loop_completes message delay d before Hdelay Hall i w Hd Hwait)
    as (dl & w' & evs & ds & df & Hloop & Hsame & _).
  exists w'. rewrite send_loop_app, Hloop. cbn [send_loop]. unfold bind at 1.
  rewrite (loop_body_format_error _ _ _ _ _ _ Hfmt).
  split; [reflexivity|]. split; [reflexivity|]. split; [exact Hsame|].
  eapply send_loop_one_outcome_each; eassumption.
Qed.

(** ** Opening and the whole run *)

Lemma incl_remove (d : Driver) (l : list Driver) :
  incl (List.remove Nat.eq_dec d l) l.
Proof. intros x Hx. now apply in_remove in Hx. Qed.

Lemma incl_remove_cons (d : Driver) (l : list Driver) :
  incl (List.remove Nat.eq_dec d (d :: l)) l.
Proof.
  intros x Hx. apply in_remove in Hx as [[Hx|Hx] Hne]; congruence.
Qed.

(** [open_whatsapp_web] never raises.  It touches only [driver]; on
    success the new session is alive, on failure [driver] is [None] and no
    session is alive that was not alive before. *)
Lemma open_whatsapp_web_spec (w : World) :
  exists (b : bool) (w' : World) (evs : list Event),
    open_whatsapp_web browser w = (Ret b, w')
    /\ self w' = set_driver (driver (self w')) (self w)
    /\ trace w' = trace w ++ evs
    /\ pauses evs = []
    /\ (if b then
          driver (self w') = Some (List.length (trace w))
          /\ live w' = List.length (trace w) :: live w
        else driver (self w') = None /\ incl (live w') (live w)).
Proof.
  step. oracle.
  - destruct (driver (self w)) as [old|]; reduce;
      exists false; eexists; eexists;
      (split; [reflexivity|]); reduce;
      rewrite <- ?app_assoc; cbn [app];
      (split; [reflexivity|]); (split; [reflexivity|]);
      (split; [reflexivity|]); (split; [reflexivity|]).
    + apply incl_remove.
    + apply incl_refl.
  - repeat oracle.
    1-2: exists false. 3: exists true.
    all: eexists; eexists; (split; [reflexivity|]); reduce.
    all: rewrite <- ?app_assoc; cbn [app].
    all: (split; [reflexivity|]); (split; [reflexivity|]);
         (split; [reflexivity|]); (split; [reflexivity|]).
    1-2: apply incl_remove_cons.
    reflexivity.
Qed.

Lemma send_bulk_messages_unfold (message : string) (delay : Z) (w : World) :
  send_bulk_messages browser clock str_format message delay w
  = if negb (truthy (contacts (self w))) then (Ret None, w)
    else
      match open_whatsapp_web browser w with
      | (Ret true, w1) =>
          match send_loop browser clock str_format message delay 1
                  (contacts (self w1)) w1 with
          | (Ret _, w2) =>
              match summary_of (self (release w2)) with
              | Ret sm => (Ret (Some sm), release w2)
              | Raise e => (Raise e, release w2)
              end
          | (Raise e, w2) => (Raise e, release w2)
          end
      | (Ret false, w1) => (Ret None, w1)
      | (Raise e, w1) => (Raise e, w1)
      end.
Proof.
  unfold send_bulk_messages, bind at 1, gets at 1. cbn [fst snd].
  destruct (negb (truthy (contacts (self w)))); [reflexivity|].
  unfold bind at 1.
  destruct (open_whatsapp_web browser w) as [[[|]|e] w1]; cbn [negb];
    try reflexivity.
  unfold bind, try_finally, gets, ret, lift, modify, quit, release.
  destruct (send_loop browser clock str_format message delay 1
              (contacts (self w1)) w1) as [[[]|e] w2];
    destruct (driver (self w2)) as [d|]; cbn [self];
    try reflexivity;
    match goal with
    | |- context [summary_of ?s] => destruct (summary_of s); reflexivity
    end.
Qed.

Lemma release_spec (w : World) (d : Driver) :
  driver (self w) = Some d ->
  driver (self (release w)) = None
  /\ ~ In d (live (release w))
  /\ incl (live (release w)) (live w)
  /\ sent_messages (self (release w)) = sent_messages (self w)
  /\ failed_messages (self (release w)) = failed_messages (self w)
  /\ contacts (self (release w)) = contacts (self w).
Proof.
  intros Hd. unfold release. rewrite Hd. cbn.
  repeat split; try apply remove_In. apply incl_remove.
Qed.

(** C1, as amended: in a run whose two waits are durations that
    [time.sleep] accepts (any from 0 to a billion seconds is), when
    [format] raises for a contact (as it does for a field that the record
    lacks) and returned for the contacts before it, the exception leaves
    [send_bulk_messages] once the browser is closed: the contacts before
    have their outcome, this contact has no Failed entry, and the contacts
    after it are not attempted. *)
Theorem C1_format_error_leaves_the_run (message : string) (delay : Z)
    (before : list Contact) (c : Contact) (after : list Contact) (e : exn)
    (w : World) :
  contacts (self w) = before ++ c :: after ->
  fst (open_whatsapp_web browser w) = Ret true ->
  Forall (formats str_format message) before ->
  str_format message c = Raise e ->
  accepted browser delay ->
  accepted browser (wait_time (self w)) ->
  exists w' : World,
    send_bulk_messages browser clock str_format message delay w = (Raise e, w')
    /\ driver (self w') = None
    /\ ~ In (List.length (trace w)) (live w')
    /\ (List.length (sent_messages (self w'))
        + List.length (failed_messages (self w')))%nat
       = (List.length (sent_messages (self w))
          + List.length (failed_messages (self w)) + List.length before)%nat.
Proof.
  intros Hcs Hopen Hall Hfmt Hdelay Hwait.
  rewrite send_bulk_messages_unfold.
  replace (truthy (contacts (self w))) with true
    by (rewrite Hcs; now destruct before).
  cbn [negb].
  destruct (open_whatsapp_web_spec w) as (b & w1 & evs & Hrun & Hself & _ & _ & Hb).
  rewrite Hrun in Hopen |- *. cbn [fst] in Hopen. injection Hopen as ->.
  destruct Hb as [Hd1 Hlive1].
  assert (Hc1 : contacts (self w1) = contacts (self w)) by now rewrite Hself.
  assert (Hw1 : wait_time (self w1) = wait_time (self w)) by now rewrite Hself.
  assert (Hs1 : sent_messages (self w1) = sent_messages (self w))
    by now rewrite Hself.
  assert (Hf1 : failed_messages (self w1) = failed_messages (self w))
    by now rewrite Hself.
  rewrite Hc1, Hcs.
  destruct (send_loop_stops_at_format_error message delay _ before c after e 1
              w1 Hdelay Hall Hfmt Hd1 ltac:(now rewrite Hw1))
    as (w2 & Hloop & _ & (_ & _ & _ & Hd2 & Hlive2) & Hcount).
  rewrite Hloop. exists (release w2).
  assert (Hd2' : driver (self w2) = Some (List.length (trace w)))
    by congruence.
  destruct (release_spec w2 _ Hd2') as (Hnone & Hgone & _ & Hs & Hf & _).
  split; [reflexivity|]. split; [exact Hnone|]. split; [exact Hgone|].
  rewrite Hs, Hf, Hcount, Hs1, Hf1. reflexivity.
Qed.

(** When a run that started with a [wait_time] that [time.sleep] accepts
    returns a summary, every contact got exactly one outcome. *)
Lemma send_bulk_messages_one_outcome_each (message : string) (delay : Z)
    (w w' : World) (sm : Summary) :
  accepted browser (wait_time (self w)) ->
  send_bulk_messages browser clock str_format message delay w
  = (Ret (Some sm), w') ->
  total sm = len (contacts (self w))
  /\ (List.length (sent_messages (self w'))
      + List.length (failed_messages (self w')))%nat
     = (List.length (sent_messages (self w))
        + List.length (failed_messages (self w))
        + List.length (contacts (self w)))%nat.
Proof.
  intros Hwait. rewrite send_bulk_messages_unfold.
  destruct (negb (truthy (contacts (self w)))); [discriminate|].
  destruct (open_whatsapp_web_spec w) as (b & w1 & evs & Hrun & Hself & _ & _ & Hb).
  rewrite Hrun. destruct b; [|discriminate].
  destruct Hb as [Hd1 _].
  destruct (send_loop browser clock str_format message delay 1
              (contacts (self w1)) w1) as [[[]|e] w2] eqn:Hloop;
    [|discriminate].
  rewrite summary_of_returns. intros H. injection H as <- <-.
  destruct (send_loop_accumulates message delay (contacts (self w1)) 1 w1)
    as (r & w2' & _ & _ & Hloop' & (_ & _ & Hc2 & Hd2 & _) & _).
  rewrite Hloop in Hloop'. injection Hloop' as <- <-.
  apply (send_loop_one_outcome_each _ _ _ _ _ _ _ Hd1) in Hloop;
    [|rewrite Hself; exact Hwait].
  assert (Hd2' : driver (self w2) = Some (List.length (trace w)))
    by congruence.
  destruct (release_spec w2 _ Hd2') as (_ & _ & _ & Hs & Hf & Hc).
  cbn [total]. rewrite Hs, Hf, Hc, Hc2, Hloop, Hself. now cbn.
Qed.

Lemma total_loop_pauses (wait delay n : Z) (delivered : list bool) :
  forall i : Z,
  i + len delivered = n + 1 ->
  fold_right Z.add 0 (loop_pauses wait delay n i delivered)
  = wait * Z.of_nat (count true delivered)
    + delay * Z.max 0 (len delivered - 1).
Proof.
  induction delivered as [|ok rest IH]; intros i Hi.
  - cbn. lia.
  - rewrite len_cons in Hi |- *. pose proof (len_nonneg rest) as Hrest.
    cbn [loop_pauses]. rewrite !fold_right_app, (IH (i + 1)) by lia.
    unfold count. cbn [count_occ].
    destruct (Z.ltb_spec i n).
    + rewrite !Z.max_r by lia.
      destruct ok; destruct (Bool.bool_dec _ true);
        try discriminate; try congruence;
        cbn [fold_right]; rewrite ?Nat2Z.inj_succ; ring.
    + replace (len rest) with 0 by lia. rewrite !Z.max_l by lia.
      destruct ok; destruct (Bool.bool_dec _ true);
        try discriminate; try congruence;
        cbn [fold_right]; rewrite ?Nat2Z.inj_succ; ring.
Qed.

(** C3, as amended: while the loop runs (both waits are durations that
    [time.sleep] accepts, the template can be filled for every contact), it
    sleeps [delay_seconds] after every contact but the last, whatever the
    outcome, and [send_message] has slept [wait_time] before that after
    every send that went through, the last one included.  [delivered] tells
    contact by contact which sends went through: those contacts, in order,
    are the entries added to the sent list, the others the entries added to
    the failed list.  In all the loop sleeps [wait_time] times the number
    of entries added to the sent list plus [delay_seconds] times the number
    of contacts less one. *)
Theorem C3_pauses_of_the_send_loop (message : string) (delay : Z)
    (d : Driver) (w : World) :
  accepted browser delay ->
  accepted browser (wait_time (self w)) ->
  Forall (formats str_format message) (contacts (self w)) ->
  driver (self w) = Some d ->
  exists (delivered : list bool) (w' : World) (evs : list Event)
         (ds : list SentEntry) (df : list FailedEntry),
    send_loop browser clock str_format message delay 1 (contacts (self w)) w
    = (Ret tt, w')
    /\ List.length delivered = List.length (contacts (self w))
    /\ trace w' = trace w ++ evs
    /\ pauses evs
       = loop_pauses (wait_time (self w)) delay (len (contacts (self w))) 1
           delivered
    /\ sent_messages (self w') = sent_messages (self w) ++ ds
    /\ failed_messages (self w') = failed_messages (self w) ++ df
    /\ map sent_phone ds
       = map (fun c => format_phone_number (contact_phone c))
           (select delivered (contacts (self w)))
    /\ map sent_name ds = map contact_name (select delivered (contacts (self w)))
    /\ map failed_phone df
       = map contact_phone (select (map negb delivered) (contacts (self w)))
    /\ map failed_name df
       = map contact_name (select (map negb delivered) (contacts (self w)))
    /\ List.length ds = count true delivered
    /\ List.length df = count false delivered
    /\ total_pause evs
       = wait_time (self w) * Z.of_nat (count true delivered)
         + delay * Z.max 0 (len (contacts (self w)) - 1).
Proof.
  intros Hdelay Hwait Hall Hd.
  destruct (send_loop_completes message delay d (contacts (self w)) Hdelay Hall
              1 w Hd Hwait)
    as (dl & w' & evs & ds & df & Hloop & _ & Hlen & Htr & Hp & Hs & Hf
        & Hds & Hdf & Hsp & Hsn & Hfp & Hfn).
  exists dl, w', evs, ds, df. repeat (split; [assumption|]).
  unfold total_pause. rewrite Hp, total_loop_pauses.
  - unfold len. now rewrite Hlen.
  - unfold len. rewrite Hlen. lia.
Qed.

(** C4, as amended: when the browser cannot be opened, the run returns
    [None], the value it also returns when no contacts are loaded; it adds
    no outcome, leaves [driver] at [None], and leaves no browser session
    alive that was not alive before. *)
Theorem C4_open_failure_returns_none (message : string) (delay : Z)
    (w : World) :
  truthy (contacts (self w)) = true ->
  fst (open_whatsapp_web browser w) = Ret false ->
  exists w' : World,
    send_bulk_messages browser clock str_format message delay w = (Ret None, w')
    /\ sent_messages (self w') = sent_messages (self w)
    /\ failed_messages (self w') = failed_messages (self w)
    /\ driver (self w') = None
    /\ incl (live w') (live w)
    /\ fst (send_bulk_messages browser clock str_format message delay
              (without_contacts w)) = Ret None.
Proof.
  intros Hcs Hopen. rewrite !send_bulk_messages_unfold, Hcs. cbn [negb].
  destruct (open_whatsapp_web_spec w) as (b & w1 & evs & Hrun & Hself & _ & _ & Hb).
  rewrite Hrun in Hopen |- *. cbn [fst] in Hopen. injection Hopen as ->.
  destruct Hb as [Hnone Hlive].
  exists w1. split; [reflexivity|].
  split; [now rewrite Hself|]. split; [now rewrite Hself|].
  split; [exact Hnone|]. split; [exact Hlive|]. reflexivity.
Qed.

(** A run returns a summary only for a sender with contacts, and the
    summary's total is their number. *)
Lemma summary_has_contacts (message : string) (delay : Z) (w w' : World)
    (sm : Summary) :
  send_bulk_messages browser clock str_format message delay w
  = (Ret (Some sm), w') ->
  total sm = len (contacts (self w)) /\ 0 < total sm.
Proof.
  rewrite send_bulk_messages_unfold.
  destruct (contacts (self w)) as [|c rest] eqn:Hcs; cbn [truthy negb];
    [discriminate|].
  destruct (open_whatsapp_web_spec w) as (b & w1 & evs & Hrun & Hself & _).
  rewrite Hrun. destruct b; [|discriminate].
  destruct (send_loop_accumulates message delay (contacts (self w1)) 1 w1)
    as (r2 & w2 & ds & df & Hloop & (_ & _ & Hc2 & Hd2 & _) & _).
  rewrite Hloop. destruct r2 as [[]|e]; [|discriminate].
  rewrite summary_of_returns. intros H. injection H as <- _.
  cbn [total].
  assert (Hc : contacts (self (release w2)) = c :: rest).
  { unfold release. destruct (driver (self w2)); cbn [self contacts set_driver];
      rewrite Hc2, Hself; cbn [contacts set_driver]; exact Hcs. }
  rewrite Hc, len_cons. pose proof (len_nonneg rest). lia.
Qed.

(** C5, as amended: with no contacts the run returns [None], not a
    summary, and asks nothing of the browser; no division takes place.
    The summary expression itself is guarded: on an empty contact list it
    gives total 0 and rate 0, and on no sender does it raise.  Every
    summary that a run returns, from whatever state, has a total above 0,
    the number of the contacts. *)
Theorem C5_no_contacts_no_summary (message : string) (delay : Z) (w : World) :
  contacts (self w) = [] ->
  send_bulk_messages browser clock str_format message delay w = (Ret None, w)
  /\ (exists sm, summary_of (self w) = Ret sm
                 /\ total sm = 0 /\ success_rate sm = PInt 0)
  /\ (forall s : Sender, exists sm, summary_of s = Ret sm)
  /\ (forall (message0 : string) (delay0 : Z) (w0 w' : World) (sm : Summary),
        send_bulk_messages browser clock str_format message0 delay0 w0
        = (Ret (Some sm), w') ->
        0 < total sm /\ total sm = len (contacts (self w0))).
Proof.
  intros Hcs. rewrite send_bulk_messages_unfold, Hcs. cbn [truthy negb].
  split; [reflexivity|]. split; [|split].
  - eexists. split; [apply summary_of_returns|]. rewrite Hcs. now cbn.
  - intros s. eexists. apply summary_of_returns.
  - intros message0 delay0 w0 w' sm Hrun.
    now destruct (summary_has_contacts _ _ _ _ _ Hrun).
Qed.

(** A run never takes an outcome away: both lists only grow, and a
    summary counts all of each list against the contacts of this run. *)
Lemma send_bulk_messages_accumulates (message : string) (delay : Z)
    (w w' : World) (r : Result (option Summary)) :
  send_bulk_messages browser clock str_format message delay w = (r, w') ->
  exists ds df,
    sent_messages (self w') = sent_messages (self w) ++ ds
    /\ failed_messages (self w') = failed_messages (self w) ++ df
    /\ forall sm, r = Ret (Some sm) ->
         total sm = len (contacts (self w))
         /\ sent sm = len (sent_messages (self w)) + len ds
         /\ failed sm = len (failed_messages (self w)) + len df
         /\ success_rate sm
            = PFloat (percent (len (sent_messages (self w)) + len ds)
                        (len (contacts (self w)))).
Proof.
  rewrite send_bulk_messages_unfold.
  destruct (truthy (contacts (self w))) eqn:Hcs; cbn [negb].
  2: { intros H. injection H as <- <-. exists [], [].
       rewrite !app_nil_r. repeat split; discriminate. }
  destruct (open_whatsapp_web_spec w) as (b & w1 & evs & Hrun & Hself & _ & _ & Hb).
  rewrite Hrun. destruct b.
  2: { intros H. injection H as <- <-. exists [], [].
       rewrite !app_nil_r, Hself. repeat split; discriminate. }
  destruct (send_loop_accumulates message delay (contacts (self w1)) 1 w1)
    as (r2 & w2 & ds & df & Hloop & (_ & _ & Hc2 & Hd2 & _) & Hs & Hf).
  rewrite Hloop. destruct Hb as [Hd1 _].
  assert (Hd2' : driver (self w2) = Some (List.length (trace w)))
    by congruence.
  destruct (release_spec w2 _ Hd2') as (_ & _ & _ & Hs3 & Hf3 & Hc3).
  assert (Hs' : sent_messages (self (release w2)) = sent_messages (self w) ++ ds)
    by (rewrite Hs3, Hs, Hself; reflexivity).
  assert (Hf' : failed_messages (self (release w2))
                = failed_messages (self w) ++ df)
    by (rewrite Hf3, Hf, Hself; reflexivity).
  assert (Hc' : contacts (self (release w2)) = contacts (self w))
    by (rewrite Hc3, Hc2, Hself; reflexivity).
  destruct r2 as [[]|e].
  - rewrite summary_of_returns. intros H. injection H as <- <-.
    exists ds, df. split; [exact Hs'|]. split; [exact Hf'|].
    intros sm Hsm. injection Hsm as <-.
    cbn [total sent failed success_rate].
    rewrite Hs', Hf', Hc', Hcs, !len_app. now repeat split.
  - intros H. injection H as <- <-. exists ds, df.
    split; [exact Hs'|]. split; [exact Hf'|]. discriminate.
Qed.

(** C2: when [wait_time] is a duration that [time.sleep] accepts, a run
    that returns a summary has appended one entry per contact: the number
    of entries appended to the sent list plus the number appended to the
    failed list is the summary's total, the number of contacts. *)
Theorem C2_one_outcome_per_contact (message : string) (delay : Z)
    (w w' : World) (sm : Summary) :
  accepted browser (wait_time (self w)) ->
  send_bulk_messages browser clock str_format message delay w
  = (Ret (Some sm), w') ->
  exists (ds : list SentEntry) (df : list FailedEntry),
    sent_messages (self w') = sent_messages (self w) ++ ds
    /\ failed_messages (self w') = failed_messages (self w) ++ df
    /\ len ds + len df = total sm
    /\ total sm = len (contacts (self w)).
Proof.
  intros Hwait Hrun.
  destruct (send_bulk_messages_one_outcome_each _ _ _ _ _ Hwait Hrun)
    as [Htotal Hcount].
  destruct (send_bulk_messages_accumulates _ _ _ _ _ Hrun)
    as (ds & df & Hs & Hf & _).
  exists ds, df. split; [exact Hs|]. split; [exact Hf|].
  split; [|exact Htotal].
  rewrite Hs, Hf, !length_app in Hcount. rewrite Htotal. unfold len. lia.
Qed.

(** ** Further properties of the methods *)

(** X6: with a browser open and a [wait_time] that [time.sleep] accepts,
    [send_message] never raises and does one of two things: it returns
    [True] and appends one entry to the sent list, with the formatted
    number and the status sent, or it returns [False] and appends one
    entry to the failed list, with the number as given; the other list,
    the contacts and the browser stay as they were. *)
Theorem X6_send_message_contract (w : World) (d : Driver) (phone : pyval)
    (message : string) (name : pyval) :
  driver (self w) = Some d ->
  accepted browser (wait_time (self w)) ->
  exists (b : bool) (w' : World) (ts : Z),
    send_message browser clock phone message name w = (Ret b, w')
    /\ same_settings w w'
    /\ if b then
         sent_messages (self w')
         = sent_messages (self w)
           ++ [mkSent name (format_phone_number phone) ts "sent"]
         /\ failed_messages (self w') = failed_messages (self w)
       else
         sent_messages (self w') = sent_messages (self w)
         /\ exists msg,
              failed_messages (self w')
              = failed_messages (self w) ++ [mkFailed name phone ts msg].
Proof.
  intros Hd Hwait. step. rewrite Hd.
  repeat oracle.
  5: rewrite Hwait; reduce.
  1-4: exists false. 5: exists true.
  all: eexists; eexists; (split; [reflexivity|]); reduce.
  all: split; [now repeat split|].
  1-4: split; [reflexivity|]; eexists; reflexivity.
  split; reflexivity.
Qed.

(** The events of a send are chat events. *)
Lemma send_message_events (w : World) (phone : pyval) (message : string)
    (name : pyval) :
  exists (b : bool) (w' : World) (evs : list Event),
    send_message browser clock phone message name w = (Ret b, w')
    /\ trace w' = trace w ++ evs
    /\ forallb chat_event evs = true.
Proof.
  step. destruct (driver (self w)) as [d|].
  - repeat oracle.
    5: match goal with
       | |- context [sleep_error browser ?h ?z] =>
           destruct (sleep_error browser h z); reduce
       end.
    all: eexists; eexists; eexists; (split; [reflexivity|]); reduce.
    all: rewrite <- ?app_assoc; cbn [app]; split; reflexivity.
  - exists false, w, []. now rewrite app_nil_r.
Qed.

Lemma send_loop_events (message : string) (delay : Z) (cs : list Contact) :
  forall (i : Z) (w : World),
  exists (r : Result unit) (w' : World) (evs : list Event),
    send_loop browser clock str_format message delay i cs w = (r, w')
    /\ trace w' = trace w ++ evs
    /\ forallb chat_event evs = true.
Proof.
  induction cs as [|c rest IH]; intros i w.
  - exists (Ret tt), w, []. now rewrite app_nil_r.
  - cbn [send_loop]. unfold bind at 1.
    destruct (str_format message c) as [p|e] eqn:Hfmt.
    + destruct (send_message_events w (dict_get c "phone_number" (VStr "")) p
                  (dict_get c "name" (VStr "Unknown")))
        as (b & w1 & evs1 & Hsend & Htr1 & Hev1).
      rewrite (loop_body_formatted _ _ _ _ _ _ _ _ Hfmt Hsend).
      destruct (i <? len (contacts (self w1)));
        [destruct (sleep_cases delay w1) as [Hsl|[e Hsl]]; rewrite Hsl|].
      * destruct (IH (i + 1) (record (Sleep delay) w1))
          as (r & w' & evs' & Hloop & Htr' & Hev').
        exists r, w', (evs1 ++ [Sleep delay] ++ evs'). rewrite Hloop.
        split; [reflexivity|]. split.
        -- rewrite Htr'. cbn [record trace]. rewrite Htr1, <- !app_assoc.
           reflexivity.
        -- rewrite !forallb_app, Hev1, Hev'. reflexivity.
      * exists (Raise e), w1, evs1. now repeat split.
      * destruct (IH (i + 1) w1) as (r & w' & evs' & Hloop & Htr' & Hev').
        exists r, w', (evs1 ++ evs'). rewrite Hloop.
        split; [reflexivity|]. split.
        -- now rewrite Htr', Htr1, <- app_assoc.
        -- now rewrite forallb_app, Hev1, Hev'.
    + rewrite (loop_body_format_error _ _ _ _ _ _ Hfmt).
      exists (Raise e), w, []. now rewrite app_nil_r.
Qed.

(** X7: [open_whatsapp_web] never raises and touches no attribute but
    [driver].  It returns [True] exactly when the three browser calls go
    through, and then [driver] is the new session, which is alive; when it
    returns [False], [driver] is [None] and no session is alive that was
    not alive before. *)
Theorem X7_open_whatsapp_web_contract (w : World) :
  exists (b : bool) (w' : World),
    open_whatsapp_web browser w = (Ret b, w')
    /\ self w' = set_driver (driver (self w')) (self w)
    /\ (b = true <->
        browser (trace w) Launch = None
        /\ browser (trace w ++ [Launch]) (Get root_url) = None
        /\ browser (trace w ++ [Launch; Get root_url])
             (WaitPresence 30 chat_pane_xpath) = None)
    /\ if b then
         driver (self w') = Some (List.length (trace w))
         /\ live w' = List.length (trace w) :: live w
         /\ trace w'
            = trace w ++ [Launch; Get root_url; WaitPresence 30 chat_pane_xpath]
       else driver (self w') = None /\ incl (live w') (live w).
Proof.
  assert (E : (trace w ++ [Launch]) ++ [Get root_url]
              = trace w ++ [Launch; Get root_url])
    by now rewrite <- app_assoc.
  step.
  destruct (browser (trace w) Launch) eqn:H1; reduce.
  - destruct (driver (self w)) as [old|]; reduce;
      exists false; eexists; (split; [reflexivity|]); reduce;
      (split; [reflexivity|]);
      (split; [split; [discriminate | intros (H & _); discriminate H]|]);
      (split; [reflexivity|]).
    + apply incl_remove.
    + apply incl_refl.
  - destruct (browser (trace w ++ [Launch]) (Get root_url)) eqn:H2; reduce.
    + exists false. eexists. split; [reflexivity|]. reduce.
      split; [reflexivity|].
      split; [split; [discriminate | intros (_ & H & _); discriminate H]|].
      split; [reflexivity | apply incl_remove_cons].
    + rewrite E.
      destruct (browser (trace w ++ [Launch; Get root_url])
                  (WaitPresence 30 chat_pane_xpath)) eqn:H3; reduce.
      * exists false. eexists. split; [reflexivity|]. reduce.
        split; [reflexivity|].
        split; [split; [discriminate | intros (_ & _ & H); discriminate H]|].
        split; [reflexivity | apply incl_remove_cons].
      * exists true. eexists. split; [reflexivity|]. reduce.
        split; [reflexivity|].
        split; [split; [intros _; now repeat split | reflexivity]|].
        split; [reflexivity|]. split; [reflexivity|].
        now rewrite <- app_assoc.
Qed.

(** X8: [close_browser] never raises; afterwards [driver] is [None] and
    the session it referred to is not alive; the outcomes and the contacts
    stay; without a browser it does nothing, so closing twice is closing
    once. *)
Theorem X8_close_browser_contract (w : World) :
  exists w' : World,
    close_browser w = (Ret tt, w')
    /\ driver (self w') = None
    /\ self w' = set_driver None (self w)
    /\ incl (live w') (live w)
    /\ (forall d, driver (self w) = Some d ->
          ~ In d (live w') /\ trace w' = trace w ++ [Quit d])
    /\ (driver (self w) = None -> trace w' = trace w /\ live w' = live w)
    /\ close_browser w' = (Ret tt, w').
Proof.
  step. destruct (driver (self w)) as [d|] eqn:Hd; reduce.
  - eexists. split; [reflexivity|]. reduce.
    split; [reflexivity|]. split; [reflexivity|].
    split; [apply incl_remove|].
    split; [intros d' [= <-]; split; [apply remove_In | reflexivity]|].
    split; [discriminate|reflexivity].
  - exists w. split; [reflexivity|]. split; [exact Hd|].
    split; [destruct w as [[] ? ?]; cbn in *; now subst|].
    split; [apply incl_refl|].
    split; [discriminate|]. split; [now split|].
    now rewrite Hd.
Qed.

(** The three ways [open_whatsapp_web] ends. *)
Lemma open_whatsapp_web_cases (w : World) :
  exists (b : bool) (w' : World) (evs : list Event),
    open_whatsapp_web browser w = (Ret b, w')
    /\ self w' = set_driver (driver (self w')) (self w)
    /\ trace w' = trace w ++ evs
    /\ ((b = true
         /\ driver (self w') = Some (List.length (trace w))
         /\ live w' = List.length (trace w) :: live w
         /\ evs = [Launch; Get root_url; WaitPresence 30 chat_pane_xpath])
        \/ (b = false
            /\ driver (self w') = None
            /\ live w'
               = List.remove Nat.eq_dec (List.length (trace w))
                   (List.length (trace w) :: live w)
            /\ exists evs', evs = Launch :: evs'
                            ++ [Quit (List.length (trace w))]
                            /\ forallb chat_event evs' = true)
        \/ (b = false
            /\ driver (self w') = None
            /\ browser (trace w) Launch <> None
            /\ match driver (self w) with
               | Some old =>
                   live w' = List.remove Nat.eq_dec old (live w)
                   /\ evs = [Launch; Quit old]
               | None => live w' = live w /\ evs = [Launch]
               end)).
Proof.
  step. oracle.
  - destruct (driver (self w)) as [old|]; reduce;
      exists false; eexists; eexists; (split; [reflexivity|]); reduce;
      rewrite <- ?app_assoc; cbn [app];
      (split; [reflexivity|]); (split; [reflexivity|]);
      right; right; (split; [reflexivity|]); (split; [reflexivity|]);
      (split; [congruence|]); now split.
  - repeat oracle.
    1-2: exists false. 3: exists true.
    all: eexists; eexists; (split; [reflexivity|]); reduce.
    all: rewrite <- ?app_assoc; cbn [app].
    all: (split; [reflexivity|]); (split; [reflexivity|]).
    + right; left. repeat (split; [reflexivity|]).
      exists [Get root_url]. now split.
    + right; left. repeat (split; [reflexivity|]).
      exists [Get root_url; WaitPresence 30 chat_pane_xpath]. now split.
    + left. now repeat split.
Qed.

Lemma NoDup_remove_session (d : nat) (l : list nat) :
  NoDup l -> NoDup (List.remove Nat.eq_dec d l).
Proof.
  induction 1 as [|x l Hx Hl IH]; cbn [List.remove]; [constructor|].
  destruct (Nat.eq_dec d x); [exact IH|].
  constructor; [|exact IH]. intros Hin. now apply in_remove in Hin.
Qed.

Lemma remove_fresh_session (d : nat) (l : list nat) :
  ~ In d l -> List.remove Nat.eq_dec d (d :: l) = l.
Proof.
  intros H. cbn [List.remove]. destruct (Nat.eq_dec d d); [|congruence].
  now apply notin_remove.
Qed.

Lemma sound_fresh (w : World) :
  sound w -> ~ In (List.length (trace w)) (live w).
Proof. intros (Htidy & _) Hin. apply Htidy in Hin. lia. Qed.

(** Soundness survives more events when the sessions stay. *)
Lemma sound_extend (w w' : World) (evs : list Event) :
  sound w ->
  trace w' = trace w ++ evs ->
  live w' = live w ->
  driver (self w') = driver (self w) ->
  sound w'.
Proof.
  intros (Htidy & Hnd & Hdrv) Htr Hlive Hd. unfold sound.
  rewrite Htr, Hlive, Hd, length_app. repeat split; try assumption.
  intros d Hin. apply Htidy in Hin. lia.
Qed.

Lemma sound_release (w : World) : sound w -> sound (release w).
Proof.
  intros Hs. unfold release.
  destruct (driver (self w)) as [d|] eqn:Hd; [|exact Hs].
  destruct Hs as (Htidy & Hnd & Hdrv).
  unfold sound. cbn [self trace live driver set_driver].
  rewrite length_app. repeat split.
  - intros x Hx. apply in_remove in Hx as [Hx _]. apply Htidy in Hx. lia.
  - now apply NoDup_remove_session.
  - discriminate.
Qed.

Lemma sound_open (w : World) :
  sound w -> sound (snd (open_whatsapp_web browser w)).
Proof.
  intros Hs. pose proof (sound_fresh w Hs) as Hfresh.
  destruct Hs as (Htidy & Hnd & Hdrv).
  destruct (open_whatsapp_web_cases w)
    as (b & w' & evs & Hrun & _ & Htr & Hcases).
  rewrite Hrun. cbn [snd]. unfold sound. rewrite Htr, length_app.
  destruct Hcases as [(_ & Hd & Hlive & Hevs)
                     |[(_ & Hd & Hlive & evs' & Hevs & _)
                      |(_ & Hd & _ & Hold)]].
  - rewrite Hd, Hlive, Hevs. repeat split.
    + intros d [<-|Hin]; cbn [List.length]; [lia|].
      apply Htidy in Hin. lia.
    + now constructor.
    + intros d [= <-]. now left.
  - rewrite Hd, Hlive. pose proof (remove_fresh_session _ _ Hfresh) as E.
    unfold Driver in *. rewrite E. repeat split.
    + intros d Hin. apply Htidy in Hin. lia.
    + exact Hnd.
    + discriminate.
  - rewrite Hd. destruct (driver (self w)) as [old|];
      destruct Hold as [-> _]; repeat split; try discriminate.
    + intros d Hin. apply in_remove in Hin as [Hin _]. apply Htidy in Hin. lia.
    + now apply NoDup_remove_session.
    + intros d Hin. apply Htidy in Hin. lia.
    + exact Hnd.
Qed.

Lemma sound_send_bulk_messages (message : string) (delay : Z) (w : World) :
  sound w ->
  sound (snd (send_bulk_messages browser clock str_format message delay w)).
Proof.
  intros Hs. rewrite send_bulk_messages_unfold.
  destruct (negb (truthy (contacts (self w)))); [exact Hs|].
  pose proof (sound_open w Hs) as Hs1.
  destruct (open_whatsapp_web browser w) as [[[|]|e] w1]; cbn [snd] in *;
    try exact Hs1.
  destruct (send_loop_accumulates message delay (contacts (self w1)) 1 w1)
    as (r & w2 & _ & _ & Hloop & (_ & _ & _ & Hd2 & Hlive2) & _).
  destruct (send_loop_events message delay (contacts (self w1)) 1 w1)
    as (r' & w2' & evs & Hloop' & Htr & _).
  rewrite Hloop in Hloop'. injection Hloop' as <- <-.
  rewrite Hloop.
  assert (Hs2 : sound (release w2))
    by (apply sound_release; eapply sound_extend; eassumption).
  destruct r as [[]|e]; [|exact Hs2].
  rewrite summary_of_returns. exact Hs2.
Qed.

(** X11: the methods keep the browser bookkeeping sound: sessions are
    named by earlier lengths of the trace, none is alive twice, and
    [driver], when set, is a session that is alive.  So after any sequence
    of [open_whatsapp_web], [send_message], [send_bulk_messages] and
    [close_browser] a set [driver] is never a closed browser. *)
Theorem X11_methods_keep_the_world_sound (w : World) (phone : pyval)
    (message : string) (name : pyval) (delay : Z) :
  sound w ->
  sound (snd (open_whatsapp_web browser w))
  /\ sound (snd (send_message browser clock phone message name w))
  /\ sound (snd (send_bulk_messages browser clock str_format message delay w))
  /\ sound (snd (close_browser w)).
Proof.
  intros Hs. split; [now apply sound_open|]. split; [|split].
  - destruct (send_message_accumulates w phone message name)
      as (b & w' & _ & _ & Hrun & (_ & _ & _ & Hd & Hlive) & _).
    destruct (send_message_events w phone message name)
      as (b' & w'' & evs & Hrun' & Htr & _).
    rewrite Hrun in Hrun'. injection Hrun' as <- <-. rewrite Hrun.
    eapply sound_extend; eassumption.
  - now apply sound_send_bulk_messages.
  - replace (snd (close_browser w)) with (release w);
      [now apply sound_release|].
    unfold release. step. now destruct (driver (self w)).
Qed.

(** X12: opening a second browser while one is open loses the first: the
    first session stays alive, [driver] refers to the new one, and a later
    [close_browser] closes only that one. *)
Theorem X12_second_open_leaks_the_first_session (w : World) (old : Driver) :
  sound w ->
  driver (self w) = Some old ->
  fst (open_whatsapp_web browser w) = Ret true ->
  driver (self (snd (open_whatsapp_web browser w)))
  = Some (List.length (trace w))
  /\ old <> List.length (trace w)
  /\ In old (live (snd (open_whatsapp_web browser w)))
  /\ In old (live (snd (close_browser (snd (open_whatsapp_web browser w)))))
  /\ driver (self (snd (close_browser (snd (open_whatsapp_web browser w)))))
     = None.
Proof.
  intros Hs Hold Hopen.
  pose proof (sound_fresh w Hs) as Hfresh.
  destruct Hs as (_ & _ & Hdrv). specialize (Hdrv old Hold).
  destruct (open_whatsapp_web_cases w)
    as (b & w' & evs & Hrun & _ & _ & Hcases).
  rewrite Hrun in Hopen |- *. cbn [fst snd] in *. injection Hopen as ->.
  destruct Hcases as [(_ & Hd & Hlive & _)|[(H & _)|(H & _)]];
    try discriminate H.
  assert (Hne : old <> List.length (trace w))
    by (intros E; apply Hfresh; now rewrite <- E).
  split; [exact Hd|]. split; [exact Hne|].
  split; [rewrite Hlive; now right|].
  step. rewrite Hd. reduce. rewrite Hlive.
  split; [|reflexivity].
  apply in_in_remove; [exact Hne | now right].
Qed.

(** X13: when Chrome cannot be started while a browser is open, the
    handler of [open_whatsapp_web] closes the browser that was open:
    [False] is returned, [driver] is [None] and the old session is no
    longer alive. *)
Theorem X13_failed_relaunch_closes_the_open_browser (w : World)
    (old : Driver) (msg : string) :
  driver (self w) = Some old ->
  browser (trace w) Launch = Some msg ->
  exists w' : World,
    open_whatsapp_web browser w = (Ret false, w')
    /\ driver (self w') = None
    /\ ~ In old (live w')
    /\ trace w' = trace w ++ [Launch; Quit old].
Proof.
  intros Hold Hfail. step. rewrite Hfail. reduce. rewrite Hold. reduce.
  eexists. split; [reflexivity|]. reduce.
  split; [reflexivity|]. split; [apply remove_In|].
  now rewrite <- app_assoc.
Qed.

(** X14: a run over a non-empty contact list always ends with the browser
    closed, whether it returns a summary, returns [None] or raises:
    [driver] is [None] and no session is alive that was not alive before;
    started without a browser in a sound world, it leaves exactly the
    sessions it found. *)
Theorem X14_run_always_closes_the_browser (message : string) (delay : Z)
    (w w' : World) (r : Result (option Summary)) :
  truthy (contacts (self w)) = true ->
  send_bulk_messages browser clock str_format message delay w = (r, w') ->
  driver (self w') = None
  /\ incl (live w') (live w)
  /\ (sound w -> driver (self w) = None -> live w' = live w).
Proof.
  intros Hcs. rewrite send_bulk_messages_unfold, Hcs. cbn [negb].
  destruct (open_whatsapp_web_cases w)
    as (b & w1 & evs & Hrun & _ & _ & Hcases).
  rewrite Hrun.
  destruct Hcases as [(-> & Hd & Hlive & _)
                     |[(-> & Hd & Hlive & _)|(-> & Hd & _ & Hold)]].
  - destruct (send_loop_accumulates message delay (contacts (self w1)) 1 w1)
      as (r2 & w2 & _ & _ & Hloop & (_ & _ & _ & Hd2 & Hlive2) & _).
    rewrite Hloop.
    assert (Hrel : driver (self (release w2)) = None
                   /\ live (release w2)
                      = List.remove Nat.eq_dec (List.length (trace w))
                          (List.length (trace w) :: live w)).
    { unfold release. rewrite Hd2, Hd, Hlive2, Hlive. now split. }
    destruct Hrel as [Hnone Hrem].
    assert (Hgoal : driver (self (release w2)) = None
                    /\ incl (live (release w2)) (live w)
                    /\ (sound w -> driver (self w) = None ->
                        live (release w2) = live w)).
    { split; [exact Hnone|]. rewrite Hrem.
      split; [apply incl_remove_cons|].
      intros Hs _. apply remove_fresh_session. now apply sound_fresh. }
    destruct r2 as [[]|e]; [rewrite summary_of_returns|];
      intros H; injection H as <- <-; exact Hgoal.
  - intros H. injection H as <- <-. split; [exact Hd|]. rewrite Hlive.
    split; [apply incl_remove_cons|].
    intros Hs _. apply remove_fresh_session. now apply sound_fresh.
  - intros H. injection H as <- <-. split; [exact Hd|].
    destruct (driver (self w)) as [old|]; destruct Hold as [-> _].
    + split; [apply incl_remove|]. intros _ Hnone. discriminate Hnone.
    + split; [apply incl_refl|]. reflexivity.
Qed.

(** X15: a run whose browser opens uses that one session throughout:
    after the three opening calls come chat events only (no browser is
    started or closed in between), and the last event closes the session,
    whether the loop returned or raised. *)
Theorem X15_one_session_per_run (message : string) (delay : Z) (w : World) :
  truthy (contacts (self w)) = true ->
  fst (open_whatsapp_web browser w) = Ret true ->
  exists (r : Result (option Summary)) (w' : World) (evs : list Event),
    send_bulk_messages browser clock str_format message delay w = (r, w')
    /\ r <> Ret None
    /\ trace w'
       = trace w
         ++ [Launch; Get root_url; WaitPresence 30 chat_pane_xpath]
         ++ evs ++ [Quit (List.length (trace w))]
    /\ forallb chat_event evs = true.
Proof.
  intros Hcs Hopen. rewrite send_bulk_messages_unfold, Hcs. cbn [negb].
  destruct (open_whatsapp_web_cases w)
    as (b & w1 & evs1 & Hrun & _ & Htr1 & Hcases).
  rewrite Hrun in Hopen |- *. cbn [fst] in Hopen. injection Hopen as ->.
  destruct Hcases as [(_ & Hd & Hlive & ->)|[(H & _)|(H & _)]];
    try discriminate H.
  destruct (send_loop_accumulates message delay (contacts (self w1)) 1 w1)
    as (r2 & w2 & _ & _ & Hloop & (_ & _ & _ & Hd2 & _) & _).
  destruct (send_loop_events message delay (contacts (self w1)) 1 w1)
    as (r2' & w2' & evs & Hloop' & Htr2 & Hev).
  rewrite Hloop in Hloop'. injection Hloop' as <- <-. rewrite Hloop.
  assert (Htr : trace (release w2)
                = trace w
                  ++ [Launch; Get root_url; WaitPresence 30 chat_pane_xpath]
                  ++ evs ++ [Quit (List.length (trace w))]).
  { unfold release. rewrite Hd2, Hd. cbn [trace].
    rewrite Htr2, Htr1, <- !app_assoc. reflexivity. }
  destruct r2 as [[]|e]; [rewrite summary_of_returns|];
    eexists; exists (release w2), evs;
    (split; [reflexivity|]); (split; [discriminate|]); now split.
Qed.

Lemma open_succeeded (w : World) :
  fst (open_whatsapp_web browser w) = Ret true ->
  exists w1 : World,
    open_whatsapp_web browser w = (Ret true, w1)
    /\ self w1 = set_driver (Some (List.length (trace w))) (self w)
    /\ live w1 = List.length (trace w) :: live w.
Proof.
  intros Hopen.
  destruct (open_whatsapp_web_cases w)
    as (b & w1 & evs & Hrun & Hself & _ & Hcases).
  rewrite Hrun in Hopen. cbn [fst] in Hopen. injection Hopen as ->.
  destruct Hcases as [(_ & Hd & Hlive & _)|[(H & _)|(H & _)]];
    try discriminate H.
  exists w1. rewrite Hd in Hself. now repeat split.
Qed.

(** X16: with a browser that opens, a template that every contact can
    fill and two waits that [time.sleep] accepts, the run returns a
    summary; its total is the number of contacts and its sent and failed
    counts grew, together, by exactly that number. *)
Theorem X16_run_returns_a_summary (message : string) (delay : Z) (w : World) :
  truthy (contacts (self w)) = true ->
  fst (open_whatsapp_web browser w) = Ret true ->
  Forall (formats str_format message) (contacts (self w)) ->
  accepted browser delay ->
  accepted browser (wait_time (self w)) ->
  exists (sm : Summary) (w' : World),
    send_bulk_messages browser clock str_format message delay w
    = (Ret (Some sm), w')
    /\ total sm = len (contacts (self w))
    /\ sent sm + failed sm
       = len (sent_messages (self w)) + len (failed_messages (self w))
         + len (contacts (self w))
    /\ contacts (self w') = contacts (self w)
    /\ driver (self w') = None.
Proof.
  intros Hcs Hopen Hall Hdelay Hwait.
  rewrite send_bulk_messages_unfold, Hcs. cbn [negb].
  destruct (open_succeeded w Hopen) as (w1 & Hrun & Hself & _).
  rewrite Hrun.
  assert (Hc1 : contacts (self w1) = contacts (self w)) by now rewrite Hself.
  assert (Hd1 : driver (self w1) = Some (List.length (trace w)))
    by now rewrite Hself.
  rewrite Hc1.
  destruct (send_loop_completes message delay _ (contacts (self w)) Hdelay Hall
              1 w1 Hd1)
    as (dl & w2 & evs & ds & df & Hloop & (_ & _ & Hc2 & Hd2 & _) & _);
    [now rewrite Hself|].
  rewrite Hloop, summary_of_returns.
  apply (send_loop_one_outcome_each _ _ _ _ _ _ _ Hd1) in Hloop;
    [|now rewrite Hself].
  assert (Hd2' : driver (self w2) = Some (List.length (trace w)))
    by congruence.
  destruct (release_spec w2 _ Hd2') as (Hnone & _ & _ & Hs & Hf & Hc).
  eexists. exists (release w2). split; [reflexivity|].
  cbn [total sent failed]. rewrite Hs, Hf, Hc, Hc2, Hc1.
  split; [reflexivity|]. split; [|now split].
  rewrite Hself in Hloop. cbn [sent_messages failed_messages set_driver] in Hloop.
  unfold len. lia.
Qed.

Section Cooperative.

(** A browser in which every call goes through. *)
Hypothesis every_call_returns : forall history ev, browser history ev = None.

Lemma send_message_cooperative (w : World) (d : Driver) (phone : pyval)
    (message : string) (name : pyval) :
  driver (self w) = Some d ->
  accepted browser (wait_time (self w)) ->
  exists (w' : World) (e : SentEntry),
    send_message browser clock phone message name w = (Ret true, w')
    /\ same_settings w w'
    /\ sent_messages (self w') = sent_messages (self w) ++ [e]
    /\ failed_messages (self w') = failed_messages (self w).
Proof.
  intros Hd Hwait. step. rewrite Hd, !every_call_returns. reduce.
  rewrite Hwait. reduce.
  eexists. eexists. split; [reflexivity|]. reduce.
  split; [now repeat split|]. now split.
Qed.

Lemma send_loop_cooperative (message : string) (delay : Z) (d : Driver)
    (cs : list Contact) :
  accepted browser delay ->
  Forall (formats str_format message) cs ->
  forall (i : Z) (w : World),
  driver (self w) = Some d ->
  accepted browser (wait_time (self w)) ->
  exists (w' : World) (ds : list SentEntry),
    send_loop browser clock str_format message delay i cs w = (Ret tt, w')
    /\ same_settings w w'
    /\ sent_messages (self w') = sent_messages (self w) ++ ds
    /\ List.length ds = List.length cs
    /\ failed_messages (self w') = failed_messages (self w).
Proof.
  intros Hdelay Hall.
  induction Hall as [|c rest [p Hfmt] _ IH]; intros i w Hd Hwait.
  - exists w, []. rewrite app_nil_r. split; [reflexivity|].
    split; [apply same_settings_refl|]. now repeat split.
  - destruct (send_message_cooperative w d
                (dict_get c "phone_number" (VStr "")) p
                (dict_get c "name" (VStr "Unknown")) Hd Hwait)
      as (w1 & e & Hsend & Hsame & Hs & Hf).
    cbn [send_loop]. unfold bind at 1.
    rewrite (loop_body_formatted _ _ _ _ _ _ _ _ Hfmt Hsend).
    set (w2 := if i <? len (contacts (self w1)) then record (Sleep delay) w1
               else w1).
    assert (Hrun : (if i <? len (contacts (self w1))
                    then sleep browser delay w1
                    else (Ret tt, w1)) = (Ret tt, w2)).
    { unfold w2. destruct (i <? len (contacts (self w1)));
        [now apply sleep_accepted | reflexivity]. }
    assert (Hsame2 : same_settings w1 w2
                     /\ sent_messages (self w2) = sent_messages (self w1)
                     /\ failed_messages (self w2) = failed_messages (self w1)).
    { unfold w2. destruct (i <? len (contacts (self w1)));
        (split; [|now split]);
        [apply same_settings_record | apply same_settings_refl]. }
    destruct Hsame2 as (Hsame2 & Hs2 & Hf2).
    pose proof (same_settings_trans _ _ _ Hsame Hsame2) as Hsame02.
    destruct (IH (i + 1) w2) as (w' & ds & Hloop & Hsame' & Hs' & Hlen & Hf').
    { destruct Hsame02 as (_ & _ & _ & Hdrv & _). congruence. }
    { destruct Hsame02 as (_ & Hw & _). now rewrite Hw. }
    exists w', (e :: ds).
    rewrite Hrun, Hloop. split; [reflexivity|].
    split; [eapply same_settings_trans; eassumption|].
    split; [rewrite Hs', Hs2, Hs, <- app_assoc; reflexivity|].
    split; [cbn [List.length]; now rewrite Hlen|].
    now rewrite Hf', Hf2, Hf.
Qed.

(** X17: when every browser call goes through, the template fits every
    contact and [time.sleep] accepts the two waits, every contact is sent
    and none fails: the summary counts as sent the earlier entries plus
    one per contact, and the failed list stays as it was. *)
Theorem X17_cooperative_browser_sends_to_all (message : string) (delay : Z)
    (w : World) :
  truthy (contacts (self w)) = true ->
  Forall (formats str_format message) (contacts (self w)) ->
  accepted browser delay ->
  accepted browser (wait_time (self w)) ->
  exists (sm : Summary) (w' : World),
    send_bulk_messages browser clock str_format message delay w
    = (Ret (Some sm), w')
    /\ total sm = len (contacts (self w))
    /\ sent sm = len (sent_messages (self w)) + len (contacts (self w))
    /\ failed sm = len (failed_messages (self w))
    /\ failed_messages (self w') = failed_messages (self w).
Proof.
  intros Hcs Hall Hdelay Hwait.
  rewrite send_bulk_messages_unfold, Hcs. cbn [negb].
  assert (Hopen : fst (open_whatsapp_web browser w) = Ret true).
  { step. now rewrite !every_call_returns. }
  destruct (open_succeeded w Hopen) as (w1 & Hrun & Hself & _).
  rewrite Hrun.
  assert (Hc1 : contacts (self w1) = contacts (self w)) by now rewrite Hself.
  assert (Hd1 : driver (self w1) = Some (List.length (trace w)))
    by now rewrite Hself.
  rewrite Hc1.
  destruct (send_loop_cooperative message delay _ (contacts (self w)) Hdelay
              Hall 1 w1 Hd1)
    as (w2 & ds & Hloop & (_ & _ & Hc2 & Hd2 & _) & Hs2 & Hlen & Hf2);
    [now rewrite Hself|].
  rewrite Hloop, summary_of_returns.
  assert (Hd2' : driver (self w2) = Some (List.length (trace w)))
    by congruence.
  destruct (release_spec w2 _ Hd2') as (_ & _ & _ & Hs & Hf & Hc).
  eexists. exists (release w2). split; [reflexivity|].
  cbn [total sent failed]. rewrite Hs, Hf, Hc, Hc2, Hc1, Hs2, Hf2, Hself.
  cbn [sent_messages failed_messages set_driver].
  assert (Hl : len ds = len (contacts (self w)))
    by (unfold len; now rewrite Hlen).
  rewrite len_app, Hl. now repeat split.
Qed.

End Cooperative.

(** X18: with a negative [delay_seconds], at least two contacts and a
    [wait_time] that [time.sleep] accepts, the pause after the first
    contact raises: the run ends with [ValueError]
    once the browser is closed, the first contact has its outcome and the
    second is not attempted. *)
Theorem X18_negative_delay_stops_after_first_contact (message : string)
    (delay : Z) (c1 c2 : Contact) (rest : list Contact) (p : string)
    (w : World) :
  contacts (self w) = c1 :: c2 :: rest ->
  fst (open_whatsapp_web browser w) = Ret true ->
  str_format message c1 = Ret p ->
  delay < 0 ->
  accepted browser (wait_time (self w)) ->
  exists w' : World,
    send_bulk_messages browser clock str_format message delay w
    = (Raise (ValueError "sleep length must be non-negative"), w')
    /\ driver (self w') = None
    /\ (List.length (sent_messages (self w'))
        + List.length (failed_messages (self w')))%nat
       = (List.length (sent_messages (self w))
          + List.length (failed_messages (self w)) + 1)%nat.
Proof.
  intros Hcs Hopen Hfmt Hdelay Hwait.
  rewrite send_bulk_messages_unfold, Hcs. cbn [truthy negb].
  destruct (open_succeeded w Hopen) as (w1 & Hrun & Hself & _).
  rewrite Hrun.
  assert (Hc1 : contacts (self w1) = c1 :: c2 :: rest)
    by now rewrite Hself.
  assert (Hd1 : driver (self w1) = Some (List.length (trace w)))
    by now rewrite Hself.
  rewrite Hc1. cbn [send_loop]. unfold bind at 1.
  destruct (send_message_live w1 _ (dict_get c1 "phone_number" (VStr "")) p
              (dict_get c1 "name" (VStr "Unknown")) Hd1)
    as (a & w2 & evs & Hsend & (_ & _ & Hc2 & Hd2 & _) & _
        & (ds & Hs & Hds & _) & (df & Hf & Hdf & _) & _ & Ha).
  rewrite (loop_body_formatted _ _ _ _ _ _ _ _ Hfmt Hsend), Hc2, Hc1.
  replace (1 <? len (c1 :: c2 :: rest)) with true
    by (symmetry; apply Z.ltb_lt; rewrite !len_cons;
        pose proof (len_nonneg rest); lia).
  rewrite (sleep_negative delay w2 Hdelay).
  assert (Hd2' : driver (self w2) = Some (List.length (trace w)))
    by congruence.
  destruct (release_spec w2 _ Hd2') as (Hnone & _ & _ & Hs' & Hf' & _).
  exists (release w2). split; [reflexivity|]. split; [exact Hnone|].
  rewrite Hs', Hf', Hs, Hf, !length_app, Hds, Hdf, Hself.
  cbn [sent_messages failed_messages set_driver].
  assert (Hw1 : wait_time (self w1) = wait_time (self w)) by now rewrite Hself.
  destruct a; cbn [attempt_sent attempt_failed]; try lia.
  exfalso. apply Ha. now rewrite Hw1.
Qed.

(** X19: in a run that completes (browser opens, template fits,
    [time.sleep] accepts the two waits) the sent list grows by the
    delivered contacts in contact order, each with its formatted number
    and its name, and the failed list by the other contacts in contact
    order, each with its number as given and its name; a contact without a
    name is recorded as Unknown and one without a number with the empty
    string. *)
Theorem X19_outcomes_follow_the_contacts (message : string) (delay : Z)
    (w : World) :
  truthy (contacts (self w)) = true ->
  fst (open_whatsapp_web browser w) = Ret true ->
  Forall (formats str_format message) (contacts (self w)) ->
  accepted browser delay ->
  accepted browser (wait_time (self w)) ->
  exists (delivered : list bool) (w' : World) ds df,
    snd (send_bulk_messages browser clock str_format message delay w) = w'
    /\ List.length delivered = List.length (contacts (self w))
    /\ sent_messages (self w') = sent_messages (self w) ++ ds
    /\ failed_messages (self w') = failed_messages (self w) ++ df
    /\ map sent_phone ds
       = map (fun c => format_phone_number (contact_phone c))
           (select delivered (contacts (self w)))
    /\ map sent_name ds = map contact_name (select delivered (contacts (self w)))
    /\ map failed_phone df
       = map contact_phone (select (map negb delivered) (contacts (self w)))
    /\ map failed_name df
       = map contact_name (select (map negb delivered) (contacts (self w))).
Proof.
  intros Hcs Hopen Hall Hdelay Hwait.
  rewrite send_bulk_messages_unfold, Hcs. cbn [negb].
  destruct (open_succeeded w Hopen) as (w1 & Hrun & Hself & _).
  rewrite Hrun.
  assert (Hc1 : contacts (self w1) = contacts (self w)) by now rewrite Hself.
  assert (Hd1 : driver (self w1) = Some (List.length (trace w)))
    by now rewrite Hself.
  rewrite Hc1.
  destruct (send_loop_completes message delay _ (contacts (self w)) Hdelay Hall
              1 w1 Hd1)
    as (dl & w2 & evs & ds & df & Hloop & (_ & _ & _ & Hd2 & _) & Hlen & _ & _
        & Hs2 & Hf2 & _ & _ & Hrest);
    [now rewrite Hself|].
  rewrite Hloop, summary_of_returns. cbn [snd].
  assert (Hd2' : driver (self w2) = Some (List.length (trace w)))
    by congruence.
  destruct (release_spec w2 _ Hd2') as (_ & _ & _ & Hs & Hf & _).
  exists dl, (release w2), ds, df. split; [reflexivity|].
  split; [exact Hlen|].
  rewrite Hs, Hf, Hs2, Hf2, Hself. cbn [sent_messages failed_messages set_driver].
  split; [reflexivity|]. split; [reflexivity|]. exact Hrest.
Qed.

Lemma rate_guards_agree (s : Sender) :
  len (sent_messages s) + len (failed_messages s) = len (contacts s) ->
  (if truthy (sent_messages s) || truthy (failed_messages s)
   then PFloat (percent (len (sent_messages s))
                  (len (sent_messages s) + len (failed_messages s)))
   else PInt 0)
  = (if truthy (contacts s)
     then PFloat (percent (len (sent_messages s)) (len (contacts s)))
     else PInt 0).
Proof.
  intros Hsame. rewrite Hsame, !truthy_len.
  pose proof (len_nonneg (sent_messages s)).
  pose proof (len_nonneg (failed_messages s)).
  destruct (Z.ltb_spec 0 (len (sent_messages s)));
    destruct (Z.ltb_spec 0 (len (failed_messages s)));
    destruct (Z.ltb_spec 0 (len (contacts s))); cbn [orb];
    try reflexivity; lia.
Qed.

(** X20: on a sender without earlier outcomes and with a [wait_time]
    that [time.sleep] accepts, the report taken after a run that returned
    a summary agrees with that summary: same sent and failed counts, same
    success rate, and sent plus failed is the total. *)
Theorem X20_report_agrees_with_the_summary (message : string) (delay : Z)
    (w w' : World) (sm : Summary) :
  sent_messages (self w) = [] ->
  failed_messages (self w) = [] ->
  accepted browser (wait_time (self w)) ->
  send_bulk_messages browser clock str_format message delay w
  = (Ret (Some sm), w') ->
  sent sm + failed sm = total sm
  /\ exists rep : Report,
       get_report (self w') = Ret rep
       /\ total_sent (summary rep) = sent sm
       /\ total_failed (summary rep) = failed sm
       /\ report_success_rate (summary rep) = success_rate sm
       /\ report_sent rep = sent_messages (self w')
       /\ report_failed rep = failed_messages (self w').
Proof.
  intros Hs0 Hf0 Hwait Hrun.
  destruct (send_bulk_messages_one_outcome_each _ _ _ _ _ Hwait Hrun)
    as [Htotal Hcount].
  rewrite Hs0, Hf0 in Hcount. cbn [List.length Nat.add] in Hcount.
  assert (Hsm : summary_of (self w') = Ret sm
                /\ contacts (self w') = contacts (self w)).
  { revert Hrun. rewrite send_bulk_messages_unfold.
    destruct (negb (truthy (contacts (self w)))); [discriminate|].
    destruct (open_whatsapp_web_spec w)
      as (b & w1 & evs & Hopen & Hself & _ & _ & Hb).
    rewrite Hopen. destruct b; [|discriminate]. destruct Hb as [Hd1 _].
    destruct (send_loop_accumulates message delay (contacts (self w1)) 1 w1)
      as (r2 & w2 & _ & _ & Hloop & (_ & _ & Hc2 & Hd2 & _) & _).
    rewrite Hloop. destruct r2 as [[]|e]; [|discriminate].
    rewrite summary_of_returns. intros H. injection H as <- <-.
    split; [apply summary_of_returns|].
    assert (Hd2' : driver (self w2) = Some (List.length (trace w)))
      by congruence.
    destruct (release_spec w2 _ Hd2') as (_ & _ & _ & _ & _ & Hc).
    now rewrite Hc, Hc2, Hself. }
  destruct Hsm as [Hsm Hc].
  rewrite summary_of_returns in Hsm. injection Hsm as <-.
  cbn [total sent failed success_rate] in *.
  assert (Hsame : len (sent_messages (self w')) + len (failed_messages (self w'))
                  = len (contacts (self w')))
    by (rewrite Hc; unfold len; lia).
  split; [exact Hsame|].
  eexists. split; [apply get_report_returns|].
  cbn [summary total_sent total_failed report_success_rate report_sent
       report_failed].
  repeat split. now apply rate_guards_agree.
Qed.

End RunFacts.

(** ** [str.format] and missing fields *)

Module FormatFacts.
Import Format.
Local Open Scope string_scope.

Lemma scan_literal_char (kw : Contact) (c : ascii) (r out : string) :
  c <> "{"%char -> c <> "}"%char ->
  scan kw None (String c r) out = scan kw None r (out ++ String c "").
Proof.
  intros Ho Hc.
  destruct c as [[] [] [] [] [] [] [] []]; try reflexivity; congruence.
Qed.

Lemma scan_open_field (kw : Contact) (c : ascii) (r out : string) :
  c <> "{"%char ->
  scan kw None (String "{" (String c r)) out = scan kw (Some "") (String c r) out.
Proof.
  intros Ho.
  destruct c as [[] [] [] [] [] [] [] []]; try reflexivity; congruence.
Qed.

Lemma scan_field_char (kw : Contact) (buf : string) (c : ascii)
    (r out : string) :
  c <> "}"%char ->
  scan kw (Some buf) (String c r) out
  = if is_special c then None
    else scan kw (Some (buf ++ String c "")) r out.
Proof.
  intros Hc.
  destruct c as [[] [] [] [] [] [] [] []]; try reflexivity; congruence.
Qed.

Lemma append_nil_r (s : string) : (s ++ "")%string = s.
Proof. induction s as [|c s IH]; cbn; [reflexivity | now rewrite IH]. Qed.

Lemma append_assoc (a b c : string) :
  ((a ++ b) ++ c)%string = (a ++ (b ++ c))%string.
Proof. induction a as [|x a IH]; cbn; [reflexivity | now rewrite IH]. Qed.

Lemma scan_literal (kw : Contact) (text : string) :
  brace_free text = true ->
  forall r out,
  scan kw None (text ++ r) out = scan kw None r (out ++ text).
Proof.
  induction text as [|c text IH]; intros H r out.
  - cbn. now rewrite append_nil_r.
  - cbn [brace_free] in H. apply andb_true_iff in H as [Hc H].
    apply andb_true_iff in Hc as [Ho Hc].
    apply negb_true_iff, Ascii.eqb_neq in Ho, Hc.
    cbn [String.append]. rewrite scan_literal_char, IH by assumption.
    now rewrite append_assoc.
Qed.

Lemma scan_name (kw : Contact) (name : string) :
  plain_name name = true ->
  forall buf r out,
  scan kw (Some buf) (name ++ String "}" r) out
  = match field_value kw (buf ++ name) with
    | Some (Ret v) => scan kw None r (out ++ v)
    | other => other
    end.
Proof.
  induction name as [|c name IH]; intros H buf r out.
  - cbn [String.append]. now rewrite append_nil_r.
  - cbn [plain_name] in H. apply andb_true_iff in H as [Hc H].
    apply andb_true_iff in Hc as [Hs Hc].
    apply negb_true_iff in Hs. apply negb_true_iff, Ascii.eqb_neq in Hc.
    cbn [String.append]. rewrite scan_field_char, Hs, IH by assumption.
    now rewrite append_assoc.
Qed.

(** A template whose first replacement field is a plain name that the
    record lacks raises [KeyError] for that name. *)
Lemma py_format_missing_field (kw : Contact) (text name rest : string) :
  brace_free text = true ->
  plain_name name = true ->
  all_digits name = false ->
  dict_lookup name kw = None ->
  py_format (text ++ String "{" (name ++ String "}" rest)) kw
  = Some (Raise (KeyError name))
  /\ python_format (text ++ String "{" (name ++ String "}" rest)) kw
     = Raise (KeyError name).
Proof.
  intros Htext Hname Hdigits Hmissing.
  assert (H : py_format (text ++ String "{" (name ++ String "}" rest)) kw
              = Some (Raise (KeyError name))).
  { unfold py_format. rewrite scan_literal by assumption.
    destruct name as [|c name]; [discriminate|].
    cbn [String.append].
    rewrite scan_open_field.
    - change (String c (name ++ String "}" rest))
        with (String c name ++ String "}" rest)%string.
      rewrite scan_name by assumption.
      unfold field_value. cbn [String.append]. now rewrite Hdigits, Hmissing.
    - cbn [plain_name] in Hname. apply andb_true_iff in Hname as [Hc _].
      apply andb_true_iff in Hc as [Hs _]. intros ->. discriminate. }
  split; [exact H|]. unfold python_format. now rewrite H.
Qed.

End FormatFacts.

(** ** Concrete runs *)

Import Scenario.

(** C1 as stated fails: with the template Hi {missing} the exception of
    [format] leaves [send_bulk_messages]; no Failed entry is made and the
    second contact is never reached. *)
Lemma C1_missing_field_is_not_recorded :
  fst (run cooperative two_contacts "Hi {missing}" 5)
  = Raise (KeyError "missing")
  /\ failed_messages (self (snd (run cooperative two_contacts "Hi {missing}" 5)))
     = []
  /\ sent_messages (self (snd (run cooperative two_contacts "Hi {missing}" 5)))
     = []
  /\ pages_opened (trace (snd (run cooperative two_contacts "Hi {missing}" 5)))
     = 1%nat.
Proof. vm_compute. repeat split. Qed.

(** The amended C1 on three contacts of which only the first has a city. *)
Lemma C1_format_error_leaves_the_run_witness :
  exists w' : World,
    run cooperative city_known_for_first "Hi {name} from {city}" 5
    = (Raise (KeyError "city"), w')
    /\ driver (self w') = None
    /\ ~ In 0%nat (live w')
    /\ (List.length (sent_messages (self w'))
        + List.length (failed_messages (self w')))%nat
       = 1%nat.
Proof.
  apply (C1_format_error_leaves_the_run cooperative ticking
           Format.python_format "Hi {name} from {city}" 5
           [meera] ravi [asha] (KeyError "city") (start city_known_for_first)).
  - reflexivity.
  - reflexivity.
  - constructor; [|constructor]. exists "Hi Meera from Pune". reflexivity.
  - reflexivity.
  - intros history. reflexivity.
  - intros history. reflexivity.
Defined.

(** C2 on the run of the specification: three contacts, the second of
    which times out. *)
Lemma C2_one_outcome_per_contact_witness :
  exists (ds : list SentEntry) (df : list FailedEntry),
    sent_messages
      (self (snd (run second_chat_times_out three_contacts "Hi {name}" 5)))
    = [] ++ ds
    /\ failed_messages
         (self (snd (run second_chat_times_out three_contacts "Hi {name}" 5)))
       = [] ++ df
    /\ len ds + len df = 3
    /\ 3 = len (contacts three_contacts).
Proof.
  apply (C2_one_outcome_per_contact second_chat_times_out ticking
           Format.python_format "Hi {name}" 5 (start three_contacts)
           (snd (run second_chat_times_out three_contacts "Hi {name}" 5))
           (mkSummary 3 2 1 (PFloat (percent 2 3)))).
  - intros history. reflexivity.
  - vm_compute. reflexivity.
Defined.

(** Outside that precondition the count is another: with [wait_time] at -1
    the send goes through and is recorded as sent, [time.sleep] then raises
    inside the same [try], and the handler records the same contact as
    failed; one contact, two entries. *)
Example negative_wait_time_gives_two_entries :
  exists (sm : Summary) (w' : World),
    run cooperative negative_wait "Hi {name}" 5 = (Ret (Some sm), w')
    /\ total sm = 1
    /\ sent sm = 1
    /\ failed sm = 1
    /\ len (sent_messages (self w')) + len (failed_messages (self w')) = 2
    /\ map failed_error (failed_messages (self w'))
       = ["sleep length must be non-negative"].
Proof. eexists. eexists. split; [vm_compute; reflexivity|]. now vm_compute. Qed.

(** So it is with a [wait_time] of ten billion seconds, which [time.sleep]
    refuses with [OverflowError]. *)
Example long_wait_time_gives_two_entries :
  exists (sm : Summary) (w' : World),
    run cooperative long_wait "Hi {name}" 5 = (Ret (Some sm), w')
    /\ total sm = 1
    /\ sent sm = 1
    /\ failed sm = 1
    /\ map failed_error (failed_messages (self w'))
       = ["timestamp too large to convert to C _PyTime_t"].
Proof. eexists. eexists. split; [vm_compute; reflexivity|]. now vm_compute. Qed.

(** A delay that long ends the run after the first contact, with the
    exception of [time.sleep]. *)
Example long_delay_stops_the_run :
  fst (run cooperative two_contacts "Hi {name}" 10000000000)
  = Raise (OverflowError "timestamp too large to convert to C _PyTime_t")
  /\ fst (run cooperative two_contacts "Hi {name}" 9223372036)
     = Raise (OSError "[Errno 22] Invalid argument")
  /\ pages_opened
       (trace (snd (run cooperative two_contacts "Hi {name}" 10000000000)))
     = 2%nat.
Proof. vm_compute. repeat split. Qed.

(** C3 as stated fails: [send_message] sleeps [wait_time] after a send that
    went through, also after the last contact, so the pauses are not the
    ones of the specification and differ with the outcome. *)
Lemma C3_pauses_depend_on_the_outcome :
  pauses (trace (snd (run cooperative one_contact "Hi {name}" 5))) = [2]
  /\ pauses (trace (snd (run cooperative one_contact "Hi {name}" 5)))
     <> spec_pauses 5 (contacts one_contact)
  /\ pauses (trace (snd (run cooperative two_contacts "Hi {name}" 5)))
     = [2; 5; 2]
  /\ pauses (trace (snd (run no_send_button two_contacts "Hi {name}" 5)))
     = [5]
  /\ pauses (trace (snd (run cooperative two_contacts "Hi {name}" 5)))
     <> spec_pauses 5 (contacts two_contacts).
Proof. vm_compute. repeat split; discriminate. Qed.

(** The amended C3 on three contacts, the second of which fails. *)
Lemma C3_pauses_of_the_send_loop_witness :
  exists (delivered : list bool) (w' : World) (evs : list Event)
         (ds : list SentEntry) (df : list FailedEntry),
    send_loop second_chat_times_out ticking Format.python_format "Hi {name}" 5
      1 (contacts three_contacts)
      (snd (open_whatsapp_web second_chat_times_out (start three_contacts)))
    = (Ret tt, w')
    /\ List.length delivered = 3%nat
    /\ trace w'
       = trace (snd (open_whatsapp_web second_chat_times_out
                       (start three_contacts))) ++ evs
    /\ pauses evs = loop_pauses 2 5 3 1 delivered
    /\ sent_messages (self w') = [] ++ ds
    /\ failed_messages (self w') = [] ++ df
    /\ map sent_phone ds
       = map (fun c => format_phone_number (contact_phone c))
           (select delivered (contacts three_contacts))
    /\ map sent_name ds
       = map contact_name (select delivered (contacts three_contacts))
    /\ map failed_phone df
       = map contact_phone (select (map negb delivered) (contacts three_contacts))
    /\ map failed_name df
       = map contact_name (select (map negb delivered) (contacts three_contacts))
    /\ List.length ds = count true delivered
    /\ List.length df = count false delivered
    /\ total_pause evs = 2 * Z.of_nat (count true delivered) + 5 * Z.max 0 (3 - 1).
Proof.
  apply (C3_pauses_of_the_send_loop second_chat_times_out ticking
           Format.python_format "Hi {name}" 5 0%nat
           (snd (open_whatsapp_web second_chat_times_out
                   (start three_contacts)))).
  - intros history. reflexivity.
  - intros history. reflexivity.
  - repeat constructor; eexists; reflexivity.
  - reflexivity.
Defined.

(** C4 as stated fails: a failed authentication wait is reported by the
    same return value, [None], as a run without contacts. *)
Lemma C4_open_failure_is_not_told_apart :
  fst (run never_authenticates two_contacts "Hi {name}" 5) = Ret None
  /\ fst (run cooperative sender "Hi {name}" 5) = Ret None
  /\ fst (run never_authenticates two_contacts "Hi {name}" 5)
     = fst (run cooperative sender "Hi {name}" 5).
Proof. vm_compute. repeat split. Qed.

(** The amended C4 when the QR code is never scanned. *)
Lemma C4_open_failure_returns_none_witness :
  exists w' : World,
    run never_authenticates two_contacts "Hi {name}" 5 = (Ret None, w')
    /\ sent_messages (self w') = []
    /\ failed_messages (self w') = []
    /\ driver (self w') = None
    /\ incl (live w') []
    /\ fst (send_bulk_messages never_authenticates ticking Format.python_format
              "Hi {name}" 5 (without_contacts (start two_contacts)))
       = Ret None.
Proof.
  apply (C4_open_failure_returns_none never_authenticates ticking
           Format.python_format "Hi {name}" 5 (start two_contacts)).
  - reflexivity.
  - reflexivity.
Defined.

(** C5 as stated fails: with no contacts the run has no summary at all. *)
Lemma C5_no_summary_without_contacts :
  fst (run cooperative sender "Hi {name}" 5) = Ret None
  /\ forall sm : Summary,
       fst (run cooperative sender "Hi {name}" 5) <> Ret (Some sm).
Proof. vm_compute. split; [reflexivity | discriminate]. Qed.

(** The amended C5 on a sender just built. *)
Lemma C5_no_contacts_no_summary_witness :
  run cooperative sender "Hi {name}" 5 = (Ret None, start sender)
  /\ (exists sm, summary_of sender = Ret sm
                 /\ total sm = 0 /\ success_rate sm = PInt 0)
  /\ (forall s : Sender, exists sm, summary_of s = Ret sm)
  /\ (forall (message0 : string) (delay0 : Z) (w0 w' : World) (sm : Summary),
        send_bulk_messages cooperative ticking Format.python_format message0
          delay0 w0
        = (Ret (Some sm), w') ->
        0 < total sm /\ total sm = len (contacts (self w0))).
Proof.
  apply (C5_no_contacts_no_summary cooperative ticking Format.python_format
           "Hi {name}" 5 (start sender)).
  reflexivity.
Defined.

(** C8 after the run of the specification: three contacts, one time-out. *)
Lemma C8_report_and_run_rates_agree_witness :
  exists (rn : Summary) (rep : Report),
    summary_of (self (snd (run second_chat_times_out three_contacts
                             "Hi {name}" 5))) = Ret rn
    /\ get_report (self (snd (run second_chat_times_out three_contacts
                                "Hi {name}" 5))) = Ret rep
    /\ success_rate rn = PFloat (percent 2 3)
    /\ report_success_rate (summary rep) = PFloat (percent 2 (2 + 1))
    /\ report_success_rate (summary rep) = success_rate rn.
Proof.
  apply (C8_report_and_run_rates_agree
           (self (snd (run second_chat_times_out three_contacts
                         "Hi {name}" 5)))).
  reflexivity.
Defined.

(** C9 on a sender whose browser was never opened. *)
Lemma C9_send_message_without_browser_witness :
  send_message cooperative ticking (VStr "9876543210") "Hi Asha" (VStr "Asha")
    (start one_contact)
  = (Ret false, start one_contact).
Proof.
  apply (C9_send_message_without_browser cooperative ticking
           (start one_contact)).
  reflexivity.
Defined.

(** C10: [send_bulk_messages] only appends to the two lists, so what an
    earlier run recorded stays; the summary counts whole lists against the
    contacts of this run.  Two runs to one contact, both sent: the second
    summary has total 1, sent 2 and a rate of 200. *)
Theorem C10_outcomes_accumulate_across_runs :
  (forall (browser : Browser) (clock : Clock)
          (str_format : string -> Contact -> Result string)
          (message : string) (delay : Z) (w w' : World)
          (r : Result (option Summary)),
     send_bulk_messages browser clock str_format message delay w = (r, w') ->
     exists ds df,
       sent_messages (self w') = sent_messages (self w) ++ ds
       /\ failed_messages (self w') = failed_messages (self w) ++ df
       /\ forall sm, r = Ret (Some sm) ->
            total sm = len (contacts (self w))
            /\ sent sm = len (sent_messages (self w)) + len ds
            /\ failed sm = len (failed_messages (self w)) + len df
            /\ success_rate sm
               = PFloat (percent (len (sent_messages (self w)) + len ds)
                           (len (contacts (self w)))))
  /\ (exists (sm : Summary) (w' : World),
        send_bulk_messages cooperative ticking Format.python_format
          "Hi {name}" 5 (snd (run cooperative one_contact "Hi {name}" 5))
        = (Ret (Some sm), w')
        /\ total sm = 1
        /\ sent sm = 2
        /\ success_rate sm = PFloat 200
        /\ PrimFloat.ltb 100 200 = true).
Proof.
  split.
  - intros browser clock str_format message delay w w' r Hrun.
    eapply send_bulk_messages_accumulates. exact Hrun.
  - eexists. eexists. split; [vm_compute; reflexivity|]. now vm_compute.
Qed.

(** C10 on a second run to the same contact. *)
Lemma C10_outcomes_accumulate_across_runs_witness :
  exists ds df,
    sent_messages
      (self (snd (send_bulk_messages cooperative ticking Format.python_format
                    "Hi {name}" 5
                    (snd (run cooperative one_contact "Hi {name}" 5)))))
    = sent_messages (self (snd (run cooperative one_contact "Hi {name}" 5)))
      ++ ds
    /\ failed_messages
         (self (snd (send_bulk_messages cooperative ticking
                       Format.python_format "Hi {name}" 5
                       (snd (run cooperative one_contact "Hi {name}" 5)))))
       = failed_messages
           (self (snd (run cooperative one_contact "Hi {name}" 5))) ++ df
    /\ forall sm,
         fst (send_bulk_messages cooperative ticking Format.python_format
                "Hi {name}" 5
                (snd (run cooperative one_contact "Hi {name}" 5)))
         = Ret (Some sm) ->
         total sm = 1
         /\ sent sm = 1 + len ds
         /\ failed sm = 0 + len df
         /\ success_rate sm = PFloat (percent (1 + len ds) 1).
Proof.
  apply (proj1 C10_outcomes_accumulate_across_runs cooperative ticking
           Format.python_format "Hi {name}" 5
           (snd (run cooperative one_contact "Hi {name}" 5))).
  apply surjective_pairing.
Defined.

(** ** The end-to-end runs of the specification *)

Example three_contacts_all_sent :
  fst (run cooperative three_contacts "Hi {name}" 5)
  = Ret (Some (mkSummary 3 3 0 (PFloat 100))).
Proof. vm_compute. reflexivity. Qed.

Example three_contacts_one_timeout :
  fst (run second_chat_times_out three_contacts "Hi {name}" 5)
  = Ret (Some (mkSummary 3 2 1 (PFloat (percent 2 3))))
  /\ PrimFloat.ltb 66 (percent 2 3) = true
  /\ PrimFloat.ltb (percent 2 3) 67 = true
  /\ map failed_phone
       (failed_messages
          (self (snd (run second_chat_times_out three_contacts "Hi {name}" 5))))
     = [VInt 919812345678]
  /\ map failed_error
       (failed_messages
          (self (snd (run second_chat_times_out three_contacts "Hi {name}" 5))))
     = ["Message: timeout"].
Proof. vm_compute. repeat split. Qed.

Example format_over_own_fields :
  Format.py_format "Hi {name} from {city}" meera
  = Some (Ret "Hi Meera from Pune")
  /\ Format.py_format "Hi {missing}" meera = Some (Raise (KeyError "missing")).
Proof. split; reflexivity. Qed.

(** * Further properties *)

(** ** Phone numbers *)

Module PhoneFacts.
Import PyStr.
Local Open Scope string_scope.

Lemma without_separators_cons (c : ascii) (r : string) :
  without_separators (String c r)
  = if is_separator c then without_separators r
    else String c (without_separators r).
Proof.
  unfold without_separators, is_separator.
  repeat (cbn [replace String.append orb];
          match goal with
          | |- context [Ascii.eqb c ?x] => destruct (Ascii.eqb c x)
          end);
    reflexivity.
Qed.

Lemma format_phone_number_unfold (s : string) :
  format_phone_number (VStr s) = with_country_code (without_separators (strip s)).
Proof. reflexivity. Qed.

Lemma space_is_separator (c : ascii) :
  isspace c = true -> (negb (isspace c) || Ascii.eqb c " ") = true ->
  is_separator c = true.
Proof.
  intros Hs H. rewrite Hs in H. cbn [negb orb] in H.
  apply Ascii.eqb_eq in H. now subst.
Qed.

Lemma without_separators_lstrip (s : string) :
  spaces_only s = true ->
  without_separators (lstrip s) = without_separators s.
Proof.
  induction s as [|c r IH]; [reflexivity|].
  cbn [spaces_only lstrip]. intros H. apply andb_true_iff in H as [Hc Hr].
  pose proof (fun Hs => space_is_separator c Hs Hc) as Hsep.
  destruct (isspace c); [|reflexivity].
  rewrite without_separators_cons, (Hsep eq_refl). now apply IH.
Qed.

Lemma spaces_only_lstrip (s : string) :
  spaces_only s = true -> spaces_only (lstrip s) = true.
Proof.
  induction s as [|c r IH]; [reflexivity|].
  cbn [lstrip]. intros H. destruct (isspace c); [|exact H].
  cbn [spaces_only] in H. apply andb_true_iff in H as [_ Hr]. now apply IH.
Qed.

Lemma without_separators_rstrip (s : string) :
  spaces_only s = true ->
  without_separators (rstrip s) = without_separators s.
Proof.
  induction s as [|c r IH]; [reflexivity|].
  cbn [spaces_only rstrip]. intros H. apply andb_true_iff in H as [Hc Hr].
  specialize (IH Hr). rewrite (without_separators_cons c r), <- IH.
  pose proof (fun Hs => space_is_separator c Hs Hc) as Hsep.
  destruct (rstrip r) as [|y r'].
  - destruct (isspace c).
    + now rewrite (Hsep eq_refl).
    + now rewrite without_separators_cons.
  - now rewrite (without_separators_cons c (String y r')).
Qed.

Lemma without_separators_strip (s : string) :
  spaces_only s = true ->
  without_separators (strip s) = without_separators s.
Proof.
  intros H. unfold strip.
  rewrite without_separators_rstrip by now apply spaces_only_lstrip.
  now apply without_separators_lstrip.
Qed.

Lemma space_free_without_separators (s : string) :
  spaces_only s = true -> space_free (without_separators s) = true.
Proof.
  induction s as [|c r IH]; [reflexivity|].
  cbn [spaces_only]. intros H. apply andb_true_iff in H as [Hc Hr].
  rewrite without_separators_cons.
  destruct (is_separator c) eqn:Hsep; [now apply IH|].
  cbn [space_free]. rewrite (IH Hr), andb_true_r.
  pose proof (fun Hs => space_is_separator c Hs Hc) as Hsp.
  destruct (isspace c); [|reflexivity].
  now rewrite (Hsp eq_refl) in Hsep.
Qed.

Lemma space_free_with_country_code (p : string) :
  space_free p = true -> space_free (with_country_code p) = true.
Proof.
  intros H. unfold with_country_code.
  destruct (startswith "+" p); cbn [negb]; [exact H|].
  destruct (startswith "91" p); cbn [negb String.append space_free];
    rewrite H; reflexivity.
Qed.

Lemma lstrip_space_free (s : string) : space_free s = true -> lstrip s = s.
Proof.
  destruct s as [|c r]; [reflexivity|].
  cbn [space_free lstrip]. intros H. apply andb_true_iff in H as [Hc _].
  apply negb_true_iff in Hc. now rewrite Hc.
Qed.

Lemma rstrip_space_free (s : string) : space_free s = true -> rstrip s = s.
Proof.
  induction s as [|c r IH]; [reflexivity|].
  cbn [space_free rstrip]. intros H. apply andb_true_iff in H as [Hc Hr].
  apply negb_true_iff in Hc. rewrite (IH Hr), Hc. now destruct r.
Qed.

Lemma strip_space_free (s : string) : space_free s = true -> strip s = s.
Proof.
  intros H. unfold strip. rewrite lstrip_space_free by assumption.
  now apply rstrip_space_free.
Qed.

Lemma clean_spaces_only (s : string) : clean s = true -> spaces_only s = true.
Proof.
  induction s as [|c r IH]; [reflexivity|].
  cbn [clean spaces_only]. intros H. apply andb_true_iff in H as [Hc Hr].
  apply andb_true_iff in Hc as [Hs _]. now rewrite Hs, IH.
Qed.

Lemma without_separators_clean (s : string) :
  clean s = true -> without_separators s = s.
Proof.
  induction s as [|c r IH]; [reflexivity|].
  cbn [clean]. intros H. apply andb_true_iff in H as [Hc Hr].
  apply andb_true_iff in Hc as [_ Hsep]. apply negb_true_iff in Hsep.
  now rewrite without_separators_cons, Hsep, IH.
Qed.

Lemma format_phone_number_clean (p : string) :
  clean p = true -> format_phone_number (VStr p) = with_country_code p.
Proof.
  intros H. rewrite format_phone_number_unfold.
  rewrite without_separators_strip by now apply clean_spaces_only.
  now rewrite without_separators_clean.
Qed.

Lemma digit_is_clean (c : ascii) :
  Format.is_digit c = true -> (negb (isspace c) && negb (is_separator c)) = true.
Proof.
  destruct c as [[] [] [] [] [] [] [] []]; intros H;
    try reflexivity; discriminate H.
Qed.

Lemma all_digits_clean (s : string) :
  Format.all_digits s = true -> clean s = true.
Proof.
  induction s as [|c r IH]; [reflexivity|].
  cbn [Format.all_digits clean]. intros H. apply andb_true_iff in H as [Hc Hr].
  now rewrite (digit_is_clean c Hc), IH.
Qed.

Lemma all_digits_string_of_uint (d : Decimal.uint) :
  Format.all_digits (NilEmpty.string_of_uint d) = true.
Proof. induction d; cbn [NilEmpty.string_of_uint Format.all_digits]; auto. Qed.

Lemma all_digits_py_str (z : Z) :
  0 <= z -> Format.all_digits (py_str (VInt z)) = true.
Proof.
  intros Hz. destruct z as [|p|p]; [reflexivity| |lia].
  cbn [py_str Z.to_int NilZero.string_of_int].
  unfold NilZero.string_of_uint.
  destruct (Pos.to_uint p) eqn:E; try reflexivity;
    rewrite <- E; apply all_digits_string_of_uint.
Qed.

End PhoneFacts.

(** X1: whatever the cell holds, the formatted number starts with [+] and
    holds none of the separators hyphen, space and parentheses. *)
Theorem X1_formatted_number_shape (phone : pyval) :
  PyStr.startswith "+" (format_phone_number phone) = true
  /\ without_separators (format_phone_number phone) = format_phone_number phone
  /\ forall c, is_separator c = true ->
       PyStr.occurs c (format_phone_number phone) = false.
Proof.
  destruct (format_phone_number_shape phone) as [t [Ht Hfree]].
  rewrite Ht. split; [reflexivity|]. split.
  - now apply remove_separators_id.
  - intros c Hc. apply Hfree. unfold is_separator in Hc. cbn [separators In].
    repeat match type of Hc with
           | (_ || _) = true => apply orb_true_iff in Hc as [Hc|Hc]
           end;
      apply Ascii.eqb_eq in Hc; subst; auto.
Qed.

(** X2: when the only white space of a phone string is the space
    character, [strip] adds nothing: the formatted number is the string
    with its separators removed, under the country-code rule; separators
    and spaces, wherever they stand, do not change the result. *)
Theorem X2_format_ignores_spaces_and_separators (s : string) :
  spaces_only s = true ->
  format_phone_number (VStr s) = with_country_code (without_separators s)
  /\ format_phone_number (VStr (without_separators s))
     = format_phone_number (VStr s).
Proof.
  intros H.
  assert (H1 : format_phone_number (VStr s)
               = with_country_code (without_separators s)).
  { rewrite PhoneFacts.format_phone_number_unfold.
    now rewrite PhoneFacts.without_separators_strip. }
  split; [exact H1|].
  rewrite H1, PhoneFacts.format_phone_number_unfold.
  rewrite PhoneFacts.strip_space_free
    by now apply PhoneFacts.space_free_without_separators.
  unfold without_separators at 1.
  now rewrite remove_separators_id by apply remove_separators_free.
Qed.

(** X2 at a number written with spaces, a hyphen and parentheses. *)
Lemma X2_format_ignores_spaces_and_separators_witness :
  format_phone_number (VStr " (98) 765-43210 ")
  = with_country_code (without_separators " (98) 765-43210 ")
  /\ format_phone_number (VStr (without_separators " (98) 765-43210 "))
     = format_phone_number (VStr " (98) 765-43210 ").
Proof.
  apply (X2_format_ignores_spaces_and_separators " (98) 765-43210 ").
  reflexivity.
Defined.

(** X3: formatting is idempotent on every phone string whose only white
    space is the space character. *)
Theorem X3_format_idempotent_on_ordinary_input (s : string) :
  spaces_only s = true ->
  format_phone_number (VStr (format_phone_number (VStr s)))
  = format_phone_number (VStr s).
Proof.
  intros H.
  destruct (format_phone_number_shape (VStr s)) as [t [Ht Hfree]].
  rewrite Ht, (format_phone_number_plus t Hfree), <- Ht.
  apply PhoneFacts.strip_space_free.
  rewrite PhoneFacts.format_phone_number_unfold.
  rewrite PhoneFacts.without_separators_strip by assumption.
  apply PhoneFacts.space_free_with_country_code.
  now apply PhoneFacts.space_free_without_separators.
Qed.

(** X3 at a number written with spaces. *)
Lemma X3_format_idempotent_on_ordinary_input_witness :
  format_phone_number (VStr (format_phone_number (VStr "91 9876 543210")))
  = format_phone_number (VStr "91 9876 543210").
Proof.
  apply (X3_format_idempotent_on_ordinary_input "91 9876 543210").
  reflexivity.
Defined.

(** X4: a number without country code whose own digits begin with 91 is
    taken to carry the code already: for a clean [p] that starts neither
    with [+] nor with 91, the national number 91p and the number p both
    format to +91p. *)
Theorem X4_national_number_starting_with_91 (p : string) :
  clean p = true ->
  PyStr.startswith "+" p = false ->
  PyStr.startswith "91" p = false ->
  format_phone_number (VStr ("91" ++ p)) = ("+91" ++ p)%string
  /\ format_phone_number (VStr p) = ("+91" ++ p)%string.
Proof.
  intros Hclean Hplus H91. split.
  - rewrite PhoneFacts.format_phone_number_clean
      by (cbn [String.append clean]; now rewrite Hclean).
    reflexivity.
  - rewrite PhoneFacts.format_phone_number_clean by assumption.
    unfold with_country_code. now rewrite Hplus, H91.
Qed.

(** X4 at the ten-digit number 9123456789 and its last eight digits. *)
Lemma X4_national_number_starting_with_91_witness :
  format_phone_number (VStr ("91" ++ "23456789")) = ("+91" ++ "23456789")%string
  /\ format_phone_number (VStr "23456789") = ("+91" ++ "23456789")%string.
Proof.
  apply (X4_national_number_starting_with_91 "23456789"); reflexivity.
Defined.

(** X5: a phone cell that pandas read as a non-negative integer formats
    to [+] and digits: its decimal digits under the country-code rule. *)
Theorem X5_integer_phone_number (z : Z) :
  0 <= z ->
  Format.all_digits (py_str (VInt z)) = true
  /\ format_phone_number (VInt z)
     = (if PyStr.startswith "91" (py_str (VInt z))
        then "+" ++ py_str (VInt z)
        else "+91" ++ py_str (VInt z))%string.
Proof.
  intros Hz. pose proof (PhoneFacts.all_digits_py_str z Hz) as Hd.
  split; [exact Hd|].
  change (format_phone_number (VInt z))
    with (format_phone_number (VStr (py_str (VInt z)))).
  rewrite PhoneFacts.format_phone_number_clean
    by now apply PhoneFacts.all_digits_clean.
  unfold with_country_code.
  destruct (py_str (VInt z)) as [|c r] eqn:E; [reflexivity|].
  assert (Hc : Format.is_digit c = true)
    by (cbn [Format.all_digits] in Hd; now apply andb_true_iff in Hd).
  replace (PyStr.startswith "+" (String c r)) with false.
  - cbn [negb]. now destruct (PyStr.startswith "91" (String c r)).
  - cbn [PyStr.startswith].
    destruct c as [[] [] [] [] [] [] [] []]; try reflexivity; discriminate Hc.
Qed.

(** X5 at two integer cells. *)
Lemma X5_integer_phone_number_witness :
  (Format.all_digits (py_str (VInt 9876543210)) = true
   /\ format_phone_number (VInt 9876543210) = "+919876543210")
  /\ format_phone_number (VInt 919812345678) = "+919812345678".
Proof.
  split.
  - apply (X5_integer_phone_number 9876543210). lia.
  - reflexivity.
Defined.

(** ** Row ranges *)

Lemma firstn_then_firstn {A : Type} (k j : nat) (l : list A) :
  firstn k l ++ firstn j (skipn k l) = firstn (k + j) l.
Proof.
  revert l. induction k as [|k IH]; intros l; [reflexivity|].
  destruct l as [|x l]; cbn [firstn skipn Nat.add app].
  - now destruct j.
  - now rewrite IH.
Qed.

(** X9: whatever the two row numbers are (zero, negative, past the end,
    end before start), the selection raises nothing and is a run of
    consecutive loaded rows in load order. *)
Theorem X9_row_range_is_contiguous {A : Type} (loaded : list A)
    (start_row end_row : Z) :
  exists before after,
    loaded = before ++ contacts_to_send loaded start_row end_row ++ after.
Proof.
  unfold contacts_to_send, py_slice.
  match goal with
  | |- context [firstn ?k (skipn ?a loaded)] =>
      exists (firstn a loaded), (skipn k (skipn a loaded));
      now rewrite (firstn_skipn k), (firstn_skipn a)
  end.
Qed.

(** X10: stopping after row b and resuming from row b+1 loses and repeats
    nothing: rows a to b followed by rows b+1 to c are rows a to c; rows
    1 to n are the whole list. *)
Theorem X10_row_ranges_resume {A : Type} (loaded : list A) (a b c : Z) :
  1 <= a -> a <= b -> b <= c -> c <= len loaded ->
  contacts_to_send loaded a b ++ contacts_to_send loaded (b + 1) c
  = contacts_to_send loaded a c
  /\ contacts_to_send loaded 1 (len loaded) = loaded.
Proof.
  intros Ha Hab Hbc Hc. unfold contacts_to_send. split.
  - rewrite !py_slice_inside by lia.
    replace (skipn (Z.to_nat (b + 1 - 1)) loaded)
      with (skipn (Z.to_nat (b - (a - 1))) (skipn (Z.to_nat (a - 1)) loaded))
      by (rewrite skipn_skipn; f_equal; lia).
    rewrite firstn_then_firstn. f_equal. lia.
  - rewrite py_slice_inside by lia.
    replace (Z.to_nat (1 - 1)) with 0%nat by lia. cbn [skipn].
    apply firstn_all2. unfold len. lia.
Qed.

(** X10 on five rows, stopped after the second. *)
Lemma X10_row_ranges_resume_witness :
  contacts_to_send ["a"; "b"; "c"; "d"; "e"] 1 2
  ++ contacts_to_send ["a"; "b"; "c"; "d"; "e"] (2 + 1) 5
  = contacts_to_send ["a"; "b"; "c"; "d"; "e"] 1 5
  /\ contacts_to_send ["a"; "b"; "c"; "d"; "e"]
       1 (len ["a"; "b"; "c"; "d"; "e"])
     = ["a"; "b"; "c"; "d"; "e"].
Proof.
  apply (X10_row_ranges_resume ["a"; "b"; "c"; "d"; "e"] 1 2 5);
    try lia; vm_compute; discriminate.
Defined.

(** ** Loading contacts *)

Lemma has_column_lookup (cols : list string) (col : string) :
  existsb (String.eqb col) cols = true ->
  forall row : list pyval,
  List.length row = List.length cols ->
  exists v, dict_lookup col (combine cols row) = Some v.
Proof.
  induction cols as [|k cols IH]; intros H row Hlen; [discriminate|].
  destruct row as [|v row]; [discriminate|].
  cbn [combine dict_lookup]. cbn [existsb] in H.
  rewrite String.eqb_sym. destruct (String.eqb col k).
  - now exists v.
  - apply IH; [exact H|]. cbn [List.length] in Hlen. lia.
Qed.

Lemma lookup_column (cols : list string) :
  NoDup cols ->
  forall (row : list pyval) (j : nat) (col : string),
  List.length row = List.length cols ->
  nth_error cols j = Some col ->
  dict_lookup col (combine cols row) = nth_error row j.
Proof.
  induction 1 as [|k cols Hk Hnd IH]; intros row j col Hlen Hj.
  - now destruct j.
  - destruct row as [|v row]; [discriminate|].
    cbn [combine dict_lookup].
    destruct j as [|j]; cbn [nth_error] in *.
    + injection Hj as ->. now rewrite String.eqb_refl.
    + destruct (String.eqb_spec k col) as [->|_].
      * exfalso. apply Hk. eapply nth_error_In. exact Hj.
      * apply IH; [|exact Hj]. cbn [List.length] in Hlen. lia.
Qed.

(** X21: [load_contacts] never raises.  When it returns [False] (file
    missing, unreadable, or without a phone_number or name column) the
    sender is unchanged, contacts loaded earlier included.  When it returns
    [True] the contacts are the rows of the file in order, the outcome
    lists and the browser are untouched, and every contact has a
    phone_number and a name, so the defaults of the send loop are not
    used. *)
Theorem X21_load_contacts_contract (fs : FileSystem) (s : Sender) :
  (fst (load_contacts fs s) = false -> snd (load_contacts fs s) = s)
  /\ (fst (load_contacts fs s) = true ->
      exists df : DataFrame,
        fs (csv_file s) = ReadFrame df
        /\ snd (load_contacts fs s) = set_contacts (to_records df) s
        /\ List.length (contacts (snd (load_contacts fs s)))
           = List.length (rows df)
        /\ (rectangular df ->
            Forall (fun c =>
                      exists phone name,
                        dict_lookup "phone_number" c = Some phone
                        /\ dict_lookup "name" c = Some name
                        /\ contact_phone c = phone
                        /\ contact_name c = name)
              (contacts (snd (load_contacts fs s))))).
Proof.
  unfold load_contacts.
  destruct (fs (csv_file s)) as [df| |msg]; cbn [fst snd];
    try (split; [reflexivity | discriminate]).
  destruct (forallb (has_column df) required_cols) eqn:Hcols; cbn [negb fst snd].
  2: split; [reflexivity | discriminate].
  split; [discriminate|]. intros _. exists df.
  split; [reflexivity|]. split; [reflexivity|].
  cbn [contacts set_contacts]. unfold to_records.
  split; [apply length_map|].
  intros Hrect. apply Forall_map. revert Hrect. apply Forall_impl.
  intros row Hlen.
  cbn [forallb required_cols] in Hcols.
  apply andb_true_iff in Hcols as [Hphone Hname].
  apply andb_true_iff in Hname as [Hname _].
  destruct (has_column_lookup _ _ Hphone row Hlen) as [phone Hp].
  destruct (has_column_lookup _ _ Hname row Hlen) as [name Hn].
  exists phone, name. unfold contact_phone, contact_name, dict_get.
  now rewrite Hp, Hn.
Qed.

(** X21 on a file with the two columns and on one without a name column. *)
Lemma X21_load_contacts_contract_witness :
  snd (load_contacts Scenario2.disk (init "nameless.csv" 2))
  = init "nameless.csv" 2
  /\ exists df : DataFrame,
       Scenario2.disk "contacts.csv" = ReadFrame df
       /\ snd (load_contacts Scenario2.disk (init "contacts.csv" 2))
          = set_contacts (to_records df) (init "contacts.csv" 2)
       /\ List.length
            (contacts (snd (load_contacts Scenario2.disk (init "contacts.csv" 2))))
          = List.length (rows df)
       /\ (rectangular df ->
           Forall (fun c =>
                     exists phone name,
                       dict_lookup "phone_number" c = Some phone
                       /\ dict_lookup "name" c = Some name
                       /\ contact_phone c = phone
                       /\ contact_name c = name)
             (contacts
                (snd (load_contacts Scenario2.disk (init "contacts.csv" 2))))).
Proof.
  split.
  - apply (proj1 (X21_load_contacts_contract Scenario2.disk
                    (init "nameless.csv" 2))).
    reflexivity.
  - apply (proj2 (X21_load_contacts_contract Scenario2.disk
                    (init "contacts.csv" 2))).
    reflexivity.
Defined.

(** X22: a loaded contact maps every column of the file to the cell of its
    row in that column: for the row numbered i and the column numbered j,
    looking the column up in the contact gives the cell. *)
Theorem X22_loaded_contact_holds_its_row (fs : FileSystem) (s : Sender)
    (df : DataFrame) (i j : nat) (row : list pyval) (col : string) :
  fs (csv_file s) = ReadFrame df ->
  fst (load_contacts fs s) = true ->
  NoDup (columns df) ->
  rectangular df ->
  nth_error (rows df) i = Some row ->
  nth_error (columns df) j = Some col ->
  exists c : Contact,
    nth_error (contacts (snd (load_contacts fs s))) i = Some c
    /\ dict_lookup col c = nth_error row j.
Proof.
  unfold load_contacts. intros -> Hok Hnd Hrect Hrow Hcol.
  destruct (negb (forallb (has_column df) required_cols));
    [discriminate Hok|].
  cbn [snd contacts set_contacts]. unfold to_records.
  exists (combine (columns df) row).
  split; [now rewrite nth_error_map, Hrow|].
  apply lookup_column with (j := j); try assumption.
  unfold rectangular in Hrect. rewrite Forall_forall in Hrect.
  apply Hrect. eapply nth_error_In. exact Hrow.
Qed.

(** X22 at the second row and the third column of a file. *)
Lemma X22_loaded_contact_holds_its_row_witness :
  exists c : Contact,
    nth_error
      (contacts (snd (load_contacts Scenario2.disk (init "contacts.csv" 2)))) 1
    = Some c
    /\ dict_lookup "city" c = Some (VStr "Delhi").
Proof.
  apply (X22_loaded_contact_holds_its_row Scenario2.disk
           (init "contacts.csv" 2) Scenario2.frame 1 2
           [VInt 919812345678; VStr "Ravi"; VStr "Delhi"] "city").
  - reflexivity.
  - reflexivity.
  - repeat constructor; cbn; intuition discriminate.
  - repeat constructor.
  - reflexivity.
  - reflexivity.
Defined.

(** ** The send button *)

Lemma len_contacts_to_send {A : Type} (l : list A) (start_row end_row : Z) :
  1 <= start_row -> start_row <= end_row -> end_row <= len l ->
  len (contacts_to_send l start_row end_row) = end_row - start_row + 1.
Proof.
  intros H1 H2 H3. unfold contacts_to_send.
  rewrite py_slice_inside by lia.
  unfold len in *. rewrite length_firstn, length_skipn. lia.
Qed.

(** X23: through the send button, whose widgets keep the delay between 2
    and 60 and the rows within 1 <= start <= end <= number of rows, a run
    that returns a summary has attempted exactly the rows start to end:
    total is end-start+1 and every one of them has exactly one outcome,
    sent or failed.  (The sender is new and its [wait_time] is the delay,
    so no outcome is inherited, and [time.sleep] accepts a wait of at most
    60 seconds.) *)
Theorem X23_send_button_attempts_the_chosen_rows (fs : FileSystem)
    (browser : Browser) (clock : Clock)
    (str_format : string -> Contact -> Result string)
    (message_template : string) (delay start_row end_row : Z)
    (history : list Event) (alive : list Driver) (df : DataFrame)
    (sm : Summary) (w' : World) :
  fs "temp_contacts.csv" = ReadFrame df ->
  2 <= delay <= 60 ->
  1 <= start_row -> start_row <= end_row -> end_row <= len (rows df) ->
  start_sending fs browser clock str_format message_template delay
    start_row end_row history alive
  = Some (Ret (Some sm), w') ->
  total sm = end_row - start_row + 1
  /\ sent sm + failed sm = total sm
  /\ sent sm = len (sent_messages (self w'))
  /\ failed sm = len (failed_messages (self w'))
  /\ contacts (self w') = contacts_to_send (to_records df) start_row end_row.
Proof.
  intros Hfs Hdelay H1 H2 H3. unfold start_sending, load_contacts.
  cbn [csv_file init]. rewrite Hfs.
  destruct (negb (forallb (has_column df) required_cols)); [discriminate|].
  cbn [contacts set_contacts init csv_file wait_time sent_messages
       failed_messages driver].
  intros Hrun. injection Hrun as Hrun.
  unfold set_contacts, init in Hrun.
  cbn [contacts csv_file wait_time sent_messages failed_messages driver]
    in Hrun.
  assert (Hlen : len (to_records df) = len (rows df))
    by (unfold len, to_records; now rewrite length_map).
  pose proof Hrun as Hrun'.
  apply send_bulk_messages_one_outcome_each in Hrun as [Htotal Hcount];
    [|apply accepted_safe; cbn; unfold sleep_safe; lia].
  cbn [self contacts sent_messages failed_messages List.length Nat.add]
    in Htotal, Hcount.
  destruct (send_bulk_messages_accumulates _ _ _ _ _ _ _ _ Hrun')
    as (ds & dfl & Hs & Hf & Hsm).
  destruct (Hsm sm eq_refl) as (_ & Hsent & Hfailed & _).
  cbn [self contacts sent_messages failed_messages app] in Hs, Hf, Hsent, Hfailed.
  rewrite len_contacts_to_send in Htotal by lia.
  assert (Hc : contacts (self w')
               = contacts_to_send (to_records df) start_row end_row).
  { revert Hrun'. rewrite send_bulk_messages_unfold.
    destruct (negb _); [discriminate|].
    destruct (open_whatsapp_web_spec browser
                {| self := {| csv_file := "temp_contacts.csv";
                              wait_time := delay;
                              contacts := contacts_to_send (to_records df)
                                            start_row end_row;
                              sent_messages := [];
                              failed_messages := [];
                              driver := None |};
                   trace := history; live := alive |})
      as (b & w1 & evs & Hopen & Hself & _ & _ & Hb).
    rewrite Hopen. destruct b; [|discriminate]. destruct Hb as [Hd1 _].
    destruct (send_loop_accumulates browser clock str_format message_template
                delay (contacts (self w1)) 1 w1)
      as (r2 & w2 & _ & _ & Hloop & (_ & _ & Hc2 & Hd2 & _) & _).
    rewrite Hloop. destruct r2 as [[]|e]; [|discriminate].
    rewrite summary_of_returns. intros H. injection H as _ <-.
    assert (Hd2' : driver (self w2) = Some (List.length history))
      by (cbn [trace] in Hd1; congruence).
    destruct (release_spec w2 _ Hd2') as (_ & _ & _ & _ & _ & Hc).
    now rewrite Hc, Hc2, Hself. }
  pose proof (len_contacts_to_send (to_records df) start_row end_row H1 H2
                ltac:(lia)) as Hlen2.
  assert (Hsent' : sent sm = len ds)
    by (rewrite Hsent; unfold len; cbn [List.length]; lia).
  assert (Hfailed' : failed sm = len dfl)
    by (rewrite Hfailed; unfold len; cbn [List.length]; lia).
  rewrite Hs, Hf in Hcount |- *.
  split; [exact Htotal|]. split; [unfold len in *; lia|].
  now repeat split.
Qed.

(** ** The further properties on concrete runs *)

Import Scenario Scenario2.

Lemma sound_start (s : Sender) : driver s = None -> sound (start s).
Proof.
  intros Hd. unfold sound, start. cbn [live trace self].
  repeat split; [intros d []| constructor |].
  intros d H. congruence.
Qed.

Lemma sound_opened : sound (opened cooperative one_contact).
Proof.
  unfold sound. cbn. repeat split.
  - intros d [<-|[]]. lia.
  - repeat constructor. intros [].
  - intros d [= <-]. now left.
Qed.

(** X6 on a first message to Asha. *)
Lemma X6_send_message_contract_witness :
  exists (b : bool) (w' : World) (ts : Z),
    send_message cooperative ticking (VStr "98765 43210") "Hi Asha"
      (VStr "Asha") (opened cooperative one_contact)
    = (Ret b, w')
    /\ same_settings (opened cooperative one_contact) w'
    /\ if b then
         sent_messages (self w')
         = [] ++ [mkSent (VStr "Asha") "+919876543210" ts "sent"]
         /\ failed_messages (self w') = []
       else
         sent_messages (self w') = []
         /\ exists msg,
              failed_messages (self w')
              = [] ++ [mkFailed (VStr "Asha") (VStr "98765 43210") ts msg].
Proof.
  apply (X6_send_message_contract cooperative ticking
           (opened cooperative one_contact) 0%nat).
  - reflexivity.
  - intros history. reflexivity.
Defined.

(** X11 on a sender just built. *)
Lemma X11_methods_keep_the_world_sound_witness :
  sound (snd (open_whatsapp_web cooperative (start two_contacts)))
  /\ sound (snd (send_message cooperative ticking (VStr "9876543210")
                   "Hi {name}" (VStr "Asha") (start two_contacts)))
  /\ sound (snd (send_bulk_messages cooperative ticking Format.python_format
                   "Hi {name}" 5 (start two_contacts)))
  /\ sound (snd (close_browser (start two_contacts))).
Proof.
  apply (X11_methods_keep_the_world_sound cooperative ticking
           Format.python_format (start two_contacts)).
  apply sound_start. reflexivity.
Defined.

(** X12 on a browser opened twice. *)
Lemma X12_second_open_leaks_the_first_session_witness :
  driver (self (snd (open_whatsapp_web cooperative
                       (opened cooperative one_contact))))
  = Some 3%nat
  /\ 0%nat <> 3%nat
  /\ In 0%nat (live (snd (open_whatsapp_web cooperative
                            (opened cooperative one_contact))))
  /\ In 0%nat
       (live (snd (close_browser
                     (snd (open_whatsapp_web cooperative
                             (opened cooperative one_contact))))))
  /\ driver (self (snd (close_browser
                          (snd (open_whatsapp_web cooperative
                                  (opened cooperative one_contact))))))
     = None.
Proof.
  apply (X12_second_open_leaks_the_first_session cooperative
           (opened cooperative one_contact) 0%nat).
  - exact sound_opened.
  - reflexivity.
  - reflexivity.
Defined.

(** X13 on a Chrome that starts only once. *)
Lemma X13_failed_relaunch_closes_the_open_browser_witness :
  exists w' : World,
    open_whatsapp_web chrome_starts_once (opened chrome_starts_once one_contact)
    = (Ret false, w')
    /\ driver (self w') = None
    /\ ~ In 0%nat (live w')
    /\ trace w'
       = trace (opened chrome_starts_once one_contact) ++ [Launch; Quit 0%nat].
Proof.
  apply (X13_failed_relaunch_closes_the_open_browser chrome_starts_once
           (opened chrome_starts_once one_contact) 0%nat
           "Message: session not created").
  - reflexivity.
  - reflexivity.
Defined.

(** X14 on a run whose second chat times out. *)
Lemma X14_run_always_closes_the_browser_witness :
  driver (self (snd (run second_chat_times_out three_contacts "Hi {name}" 5)))
  = None
  /\ incl (live (snd (run second_chat_times_out three_contacts "Hi {name}" 5)))
       []
  /\ (sound (start three_contacts) ->
      driver (self (start three_contacts)) = None ->
      live (snd (run second_chat_times_out three_contacts "Hi {name}" 5))
      = live (start three_contacts)).
Proof.
  apply (X14_run_always_closes_the_browser second_chat_times_out ticking
           Format.python_format "Hi {name}" 5 (start three_contacts)
           (snd (run second_chat_times_out three_contacts "Hi {name}" 5))
           (fst (run second_chat_times_out three_contacts "Hi {name}" 5))).
  - reflexivity.
  - apply surjective_pairing.
Defined.

(** X15 on a run to two contacts. *)
Lemma X15_one_session_per_run_witness :
  exists (r : Result (option Summary)) (w' : World) (evs : list Event),
    run cooperative two_contacts "Hi {name}" 5 = (r, w')
    /\ r <> Ret None
    /\ trace w'
       = [] ++ [Launch; Get root_url; WaitPresence 30 chat_pane_xpath]
         ++ evs ++ [Quit 0%nat]
    /\ forallb chat_event evs = true.
Proof.
  apply (X15_one_session_per_run cooperative ticking Format.python_format
           "Hi {name}" 5 (start two_contacts)).
  - reflexivity.
  - reflexivity.
Defined.

Lemma template_fits :
  Forall (formats Format.python_format "Hi {name}") [asha; ravi; meera].
Proof. repeat constructor; eexists; reflexivity. Qed.

(** X16 on a run whose second chat times out. *)
Lemma X16_run_returns_a_summary_witness :
  exists (sm : Summary) (w' : World),
    run second_chat_times_out three_contacts "Hi {name}" 5
    = (Ret (Some sm), w')
    /\ total sm = 3
    /\ sent sm + failed sm = 0 + 0 + 3
    /\ contacts (self w') = [asha; ravi; meera]
    /\ driver (self w') = None.
Proof.
  apply (X16_run_returns_a_summary second_chat_times_out ticking
           Format.python_format "Hi {name}" 5 (start three_contacts)).
  - reflexivity.
  - reflexivity.
  - exact template_fits.
  - intros history. reflexivity.
  - intros history. reflexivity.
Defined.

(** X17 on three contacts. *)
Lemma X17_cooperative_browser_sends_to_all_witness :
  exists (sm : Summary) (w' : World),
    run cooperative three_contacts "Hi {name}" 5 = (Ret (Some sm), w')
    /\ total sm = 3
    /\ sent sm = 0 + 3
    /\ failed sm = 0
    /\ failed_messages (self w') = [].
Proof.
  apply (X17_cooperative_browser_sends_to_all cooperative ticking
           Format.python_format (fun _ _ => eq_refl) "Hi {name}" 5
           (start three_contacts)).
  - reflexivity.
  - exact template_fits.
  - intros history. reflexivity.
  - intros history. reflexivity.
Defined.

(** X18 on two contacts and a delay of -1. *)
Lemma X18_negative_delay_stops_after_first_contact_witness :
  exists w' : World,
    run cooperative two_contacts "Hi {name}" (-1)
    = (Raise (ValueError "sleep length must be non-negative"), w')
    /\ driver (self w') = None
    /\ (List.length (sent_messages (self w'))
        + List.length (failed_messages (self w')))%nat
       = (0 + 0 + 1)%nat.
Proof.
  apply (X18_negative_delay_stops_after_first_contact cooperative ticking
           Format.python_format "Hi {name}" (-1) asha ravi [] "Hi Asha"
           (start two_contacts)).
  - reflexivity.
  - reflexivity.
  - reflexivity.
  - lia.
  - intros history. reflexivity.
Defined.

(** X19 on a run whose second chat times out. *)
Lemma X19_outcomes_follow_the_contacts_witness :
  exists (delivered : list bool) (w' : World) ds df,
    snd (run second_chat_times_out three_contacts "Hi {name}" 5) = w'
    /\ List.length delivered = 3%nat
    /\ sent_messages (self w') = [] ++ ds
    /\ failed_messages (self w') = [] ++ df
    /\ map sent_phone ds
       = map (fun c => format_phone_number (contact_phone c))
           (select delivered [asha; ravi; meera])
    /\ map sent_name ds = map contact_name (select delivered [asha; ravi; meera])
    /\ map failed_phone df
       = map contact_phone (select (map negb delivered) [asha; ravi; meera])
    /\ map failed_name df
       = map contact_name (select (map negb delivered) [asha; ravi; meera]).
Proof.
  apply (X19_outcomes_follow_the_contacts second_chat_times_out ticking
           Format.python_format "Hi {name}" 5 (start three_contacts)).
  - reflexivity.
  - reflexivity.
  - exact template_fits.
  - intros history. reflexivity.
  - intros history. reflexivity.
Defined.

(** X20 on a run whose second chat times out. *)
Lemma X20_report_agrees_with_the_summary_witness :
  2 + 1 = 3
  /\ exists rep : Report,
       get_report
         (self (snd (run second_chat_times_out three_contacts "Hi {name}" 5)))
       = Ret rep
       /\ total_sent (summary rep) = 2
       /\ total_failed (summary rep) = 1
       /\ report_success_rate (summary rep) = PFloat (percent 2 3)
       /\ report_sent rep
          = sent_messages
              (self (snd (run second_chat_times_out three_contacts
                            "Hi {name}" 5)))
       /\ report_failed rep
          = failed_messages
              (self (snd (run second_chat_times_out three_contacts
                            "Hi {name}" 5))).
Proof.
  apply (X20_report_agrees_with_the_summary second_chat_times_out ticking
           Format.python_format "Hi {name}" 5 (start three_contacts)
           (snd (run second_chat_times_out three_contacts "Hi {name}" 5))
           (mkSummary 3 2 1 (PFloat (percent 2 3)))).
  - reflexivity.
  - reflexivity.
  - intros history. reflexivity.
  - vm_compute. reflexivity.
Defined.

(** X23 on rows 2 to 3 of a file of three. *)
Lemma X23_send_button_attempts_the_chosen_rows_witness :
  total (mkSummary 2 2 0 (PFloat 100)) = 3 - 2 + 1
  /\ sent (mkSummary 2 2 0 (PFloat 100)) + failed (mkSummary 2 2 0 (PFloat 100))
     = total (mkSummary 2 2 0 (PFloat 100))
  /\ sent (mkSummary 2 2 0 (PFloat 100))
     = len (sent_messages
              (self (snd (send_bulk_messages cooperative ticking
                            Format.python_format "Hi {name}" 5
                            (start (set_contacts
                                      (contacts_to_send (to_records frame) 2 3)
                                      (init "temp_contacts.csv" 5)))))))
  /\ failed (mkSummary 2 2 0 (PFloat 100))
     = len (failed_messages
              (self (snd (send_bulk_messages cooperative ticking
                            Format.python_format "Hi {name}" 5
                            (start (set_contacts
                                      (contacts_to_send (to_records frame) 2 3)
                                      (init "temp_contacts.csv" 5)))))))
  /\ contacts
       (self (snd (send_bulk_messages cooperative ticking
                     Format.python_format "Hi {name}" 5
                     (start (set_contacts
                               (contacts_to_send (to_records frame) 2 3)
                               (init "temp_contacts.csv" 5))))))
     = contacts_to_send (to_records frame) 2 3.
Proof.
  apply (X23_send_button_attempts_the_chosen_rows disk cooperative ticking
           Format.python_format "Hi {name}" 5 2 3 [] [] frame).
  - reflexivity.
  - lia.
  - lia.
  - lia.
  - vm_compute. discriminate.
  - vm_compute. reflexivity.
Defined.
